(** * FloodWise dashboard: a shallow embedding of the component state logic

    The repository is a React single-page application.  Two components
    carry logic: [Dashboard] (slider state, reset, the mocked prediction
    behind a one-shot timer) and [NotFound] (the unmatched-route fallback
    with its logging effect).  Each is embedded as a record of its hook
    state, one function per event handler, and an executable step function
    over the events the rendered markup can deliver. *)

From Stdlib Require Import QArith Qround Qabs Lqa DecimalString.
From stdpp Require Import gmap strings list.

Local Open Scope string_scope.

(** ** JavaScript values used by the components *)

Module JS.

(** A JavaScript [number].  The components never do arithmetic on numbers:
    they store them, compare them, test their truthiness and print them.
    A finite double is represented by the rational it denotes ([-0] is
    identified with [0], both are falsy); the three non-finite doubles are
    kept apart. *)
Inductive number : Type :=
  | Finite (q : Q)
  | NaN
  | PosInfinity
  | NegInfinity.

(** ToBoolean on a number: [0] and [NaN] are falsy. *)
Definition truthy (x : number) : bool :=
  match x with
  | Finite q => negb (Qeq_bool q 0)
  | NaN => false
  | PosInfinity | NegInfinity => true
  end.

(** [x || d] where [x] is a number or [undefined] ([None]). *)
Definition orElse (x : option number) (d : number) : number :=
  match x with
  | Some v => if truthy v then v else d
  | None => d
  end.

(** [x <= y] on numbers; every comparison with [NaN] is false. *)
Definition leb (x y : number) : bool :=
  match x, y with
  | NaN, _ | _, NaN => false
  | NegInfinity, _ => true
  | _, PosInfinity => true
  | Finite a, Finite b => Qle_bool a b
  | _, _ => false
  end.

(** [x < y] on numbers. *)
Definition ltb (x y : number) : bool :=
  match x, y with
  | NaN, _ | _, NaN => false
  | Finite a, Finite b => negb (Qle_bool b a)
  | NegInfinity, NegInfinity => false
  | NegInfinity, _ => true
  | PosInfinity, _ => false
  | Finite _, PosInfinity => true
  | Finite _, NegInfinity => false
  end.

(** Rounding to [digits] decimals, ties away from zero. *)
Definition roundHalfAway (digits : nat) (q : Q) : Q :=
  let scale := inject_Z (10 ^ Z.of_nat digits) in
  if Qle_bool 0 q
  then inject_Z (Qfloor (q * scale + (1 # 2))) / scale
  else - (inject_Z (Qfloor (- q * scale + (1 # 2))) / scale).

(** The number denoted by the string [x.toFixed(digits)]: the sign is split
    off, a magnitude of [1e21] or more is printed by [toString], and below
    that the integer [n] with [n / 10^digits] nearest to the magnitude is
    printed, the larger one on a tie.  Non-finite numbers print as
    themselves. *)
Definition toFixedValue (digits : nat) (x : number) : number :=
  match x with
  | Finite q =>
      if Qle_bool (inject_Z (10 ^ 21)) (Qabs q) then Finite q
      else Finite (roundHalfAway digits q)
  | other => other
  end.

(** The part of the language runtime the source relies on without
    defining it: [Number::toString], used by template interpolation. *)
Class Runtime : Type := { numberToString : number -> string }.

(** ToString of a property read, as done by [${...}] in a template
    literal: a missing property reads as [undefined]. *)
Definition interpolate `{Runtime} (x : option number) : string :=
  match x with
  | Some v => numberToString v
  | None => "undefined"
  end.

(** [hay.includes(needle)]. *)
Fixpoint includes (needle hay : string) : bool :=
  String.prefix needle hay ||
  match hay with
  | EmptyString => false
  | String _ rest => includes needle rest
  end.

(** ToBoolean on a string or [null]: [null] and the empty string are falsy. *)
Definition truthyString (x : option string) : bool :=
  match x with
  | Some EmptyString | None => false
  | Some (String _ _) => true
  end.

(** *** Bytes of a string *)

(** Strings hold the UTF-8 bytes of the source text; a character outside
    ASCII takes several bytes, each with the high bit set.  One well-formed
    text occurs inside another exactly when its bytes do, so [includes]
    on bytes agrees with the method on the text. *)
Definition isAscii (c : Ascii.ascii) : bool :=
  match c with Ascii.Ascii _ _ _ _ _ _ _ high => negb high end.

Fixpoint asciiOnly (s : string) : bool :=
  match s with
  | EmptyString => true
  | String c rest => isAscii c && asciiOnly rest
  end.

(** Scanning for the byte [a] directly followed by the byte [b]: [None]
    once the pair has been seen, otherwise whether the last byte was [a]. *)
Fixpoint scan (a b : Ascii.ascii) (previous : bool) (s : string) : option bool :=
  match s with
  | EmptyString => Some previous
  | String c rest =>
      if previous && Ascii.eqb c b then None
      else scan a b (Ascii.eqb c a) rest
  end.

End JS.

Import JS.

(** ** The dashboard page *)

Module Dashboard.

Definition mockFeatureNames : list string :=
  [ "Rainfall (mm)";
    "Water Level (m)";
    "Temperature (°C)";
    "Humidity (%)";
    "Wind Speed (km/h)";
    "River Discharge (m³/s)";
    "Soil Moisture (%)";
    "Elevation (m)" ].

(** One row of the [featureDefaults] table. *)
Record featureConfig : Type := {
  default : number;
  min : number;
  max : number;
  step : number
}.

Definition featureDefaults : gmap string featureConfig :=
  list_to_map
    [ ("Rainfall (mm)",
       {| default := Finite 50; min := Finite 0; max := Finite 300; step := Finite 1 |});
      ("Water Level (m)",
       {| default := Finite 2; min := Finite 0; max := Finite 10; step := Finite 0.1 |});
      ("Temperature (°C)",
       {| default := Finite 25; min := Finite (-10); max := Finite 50; step := Finite 0.5 |});
      ("Humidity (%)",
       {| default := Finite 60; min := Finite 0; max := Finite 100; step := Finite 1 |});
      ("Wind Speed (km/h)",
       {| default := Finite 15; min := Finite 0; max := Finite 150; step := Finite 1 |});
      ("River Discharge (m³/s)",
       {| default := Finite 100; min := Finite 0; max := Finite 1000; step := Finite 5 |});
      ("Soil Moisture (%)",
       {| default := Finite 40; min := Finite 0; max := Finite 100; step := Finite 1 |});
      ("Elevation (m)",
       {| default := Finite 50; min := Finite 0; max := Finite 500; step := Finite 1 |}) ].

(** Messages handed to the two toast libraries. *)
Inductive toastMessage : Type :=
  | ToastSuccess (message : string)
  | UiToast (destructive : bool) (title description : string).

(** The hook state of one mounted [Dashboard], together with what it has
    scheduled and emitted.  [featureValues] is the JavaScript object used as
    a map; a name that is absent (or holds [undefined]) looks up as [None],
    and no read in the component tells the two apart.  [predictTimers] holds
    the pending 2000 ms timeouts in the order they were set; each entry is
    the [featureValues] object its callback closed over. *)
Record state : Type := State {
  isLoaded : bool;
  isSubmitting : bool;
  featureValues : gmap string number;
  predictionResult : option string;
  aiInsights : option string;
  loadTimer : bool;
  predictTimers : list (gmap string number);
  toasts : list toastMessage
}.

(** The values of the [useState] calls, before any effect has run. *)
Definition initial : state :=
  {| isLoaded := false; isSubmitting := false; featureValues := ∅;
     predictionResult := None; aiInsights := None;
     loadTimer := false; predictTimers := []; toasts := [] |}.

(** The [defaults] object built by the [forEach] loop, shared by the mount
    effect and by [handleReset]. *)
Definition defaults : gmap string number :=
  foldl (fun acc name =>
           <[name := orElse (default <$> featureDefaults !! name) (Finite 0)]> acc)
        ∅ mockFeatureNames.

(** The mount effect: default values, and the 100 ms animation timer. *)
Definition mountEffect (s : state) : state :=
  {| isLoaded := isLoaded s; isSubmitting := isSubmitting s;
     featureValues := defaults;
     predictionResult := predictionResult s; aiInsights := aiInsights s;
     loadTimer := true; predictTimers := predictTimers s; toasts := toasts s |}.

Definition loadTimeout (s : state) : state :=
  {| isLoaded := true; isSubmitting := isSubmitting s;
     featureValues := featureValues s;
     predictionResult := predictionResult s; aiInsights := aiInsights s;
     loadTimer := false; predictTimers := predictTimers s; toasts := toasts s |}.

(** [{...prev, [name]: value[0]}]: an empty array stores [undefined]. *)
Definition handleSliderChange (name : string) (value : list number) (s : state) : state :=
  {| isLoaded := isLoaded s; isSubmitting := isSubmitting s;
     featureValues :=
       match head value with
       | Some v => <[name := v]> (featureValues s)
       | None => delete name (featureValues s)
       end;
     predictionResult := predictionResult s; aiInsights := aiInsights s;
     loadTimer := loadTimer s; predictTimers := predictTimers s; toasts := toasts s |}.

Definition handleReset (s : state) : state :=
  {| isLoaded := isLoaded s; isSubmitting := isSubmitting s;
     featureValues := defaults;
     predictionResult := None; aiInsights := None;
     loadTimer := loadTimer s; predictTimers := predictTimers s;
     toasts := toasts s ++ [ToastSuccess "All parameters have been reset to default values"] |}.

(** [handlePredict] itself only raises [isSubmitting] and schedules the
    callback; the callback keeps the [featureValues] of the render whose
    button was clicked. *)
Definition handlePredict (s : state) : state :=
  {| isLoaded := isLoaded s; isSubmitting := true;
     featureValues := featureValues s;
     predictionResult := predictionResult s; aiInsights := aiInsights s;
     loadTimer := loadTimer s;
     predictTimers := predictTimers s ++ [featureValues s];
     toasts := toasts s |}.

(** *** The mocked prediction *)

(** [Math.random() > 0.5]; the draw is a double in the unit interval. *)
Definition isHighRisk (random : Q) : bool := negb (Qle_bool random 0.5).

Definition result (isHighRisk : bool) : string :=
  if isHighRisk then "🚨 High Flood Risk Level!" else "✅ Low Flood Risk Level.".

(** A template literal is a sequence of text chunks and substitutions.  The
    only substitutions that read state are [${featureValues[name]}]; the
    substitutions on [isHighRisk] are resolved when the template is chosen. *)
Inductive piece : Type :=
  | Text (s : string)
  | Subst (name : string).

(** The line feed, written as a raw line break in the template literal and
    as [\n] in the quoted strings. *)
Definition nl : string := String (Ascii.ascii_of_nat 10) EmptyString.

Definition heading (isHighRisk : bool) : string :=
  if isHighRisk then "⚠️ Key risk factors:" else "✓ Favorable conditions:".

(** The nested template literal listing the factors. *)
Definition factors (isHighRisk : bool) : list piece :=
  if isHighRisk then
    [ Text "• The rainfall value of "; Subst "Rainfall (mm)";
      Text "mm exceeds critical thresholds."; Text nl;
      Text "        • Water level at "; Subst "Water Level (m)";
      Text "m is approaching concerning levels."; Text nl;
      Text "        • Current humidity levels ("; Subst "Humidity (%)";
      Text "%) indicate saturated conditions." ]
  else
    [ Text "• Rainfall at "; Subst "Rainfall (mm)";
      Text "mm is below flood-triggering levels."; Text nl;
      Text "        • Current water level of "; Subst "Water Level (m)";
      Text "m is within safe parameters."; Text nl;
      Text "        • Temperature and humidity conditions remain favorable." ].

Definition recommendations (isHighRisk : bool) : string :=
  if isHighRisk then
    "• Monitor precipitation forecasts closely in the next 24-48 hours." +:+ nl +:+
    "• Consider implementing early warning procedures." +:+ nl +:+
    "• Evaluate drainage systems in potentially affected areas."
  else
    "• Continue regular monitoring of environmental conditions." +:+ nl +:+
    "• No immediate action required based on current parameters." +:+ nl +:+
    "• Maintain standard preparedness protocols.".

(** The outer template literal assigned to [insights]. *)
Definition insightsTemplate (isHighRisk : bool) : list piece :=
  [ Text nl;
    Text "      🔍 Flood Prediction Analysis:"; Text nl;
    Text "      "; Text nl;
    Text "      Based on the provided environmental data, our model has identified the following:";
    Text nl;
    Text "      "; Text nl;
    Text "      "; Text (heading isHighRisk); Text nl;
    Text "      " ]
  ++ factors isHighRisk ++
  [ Text nl;
    Text "      "; Text nl;
    Text "      Recommendations:"; Text nl;
    Text "      "; Text (recommendations isHighRisk); Text nl;
    Text "      " ].

(** The feature names a template reads, in order of appearance. *)
Definition substitutions (template : list piece) : list string :=
  omap (fun p => match p with Text _ => None | Subst name => Some name end) template.

Section Rendering.
Context `{Runtime}.

Definition renderPiece (values : gmap string number) (p : piece) : string :=
  match p with
  | Text s => s
  | Subst name => interpolate (values !! name)
  end.

Definition render (values : gmap string number) (template : list piece) : string :=
  foldr (fun p rest => renderPiece values p +:+ rest) "" template.

Definition insights (isHighRisk : bool) (values : gmap string number) : string :=
  render values (insightsTemplate isHighRisk).

Definition riskToast (isHighRisk : bool) : toastMessage :=
  if isHighRisk then
    UiToast true "High Flood Risk Detected"
      "Review the AI insights for detailed analysis and recommendations."
  else
    UiToast false "Low Flood Risk Detected"
      "Current conditions show minimal flood risk. See AI insights for details.".

(** The body of the [setTimeout] callback.  [random] is the value returned
    by [Math.random()] and [captured] the [featureValues] of the closure. *)
Definition predictTimeout (random : Q) (captured : gmap string number) (s : state) : state :=
  let isHighRisk := isHighRisk random in
  {| isLoaded := isLoaded s; isSubmitting := false;
     featureValues := featureValues s;
     predictionResult := Some (result isHighRisk);
     aiInsights := Some (insights isHighRisk captured);
     loadTimer := loadTimer s; predictTimers := predictTimers s;
     toasts := toasts s ++ [riskToast isHighRisk] |}.

End Rendering.

(** *** What the markup shows *)

Definition predictButtonDisabled (s : state) : bool := isSubmitting s.
Definition resetButtonDisabled (s : state) : bool := isSubmitting s.

(** [featureDefaults[name] || { min: 0, max: 100, step: 1 }]. *)
Definition sliderConfig (name : string) : number * number * number :=
  match featureDefaults !! name with
  | Some cfg => (min cfg, max cfg, step cfg)
  | None => (Finite 0, Finite 100, Finite 1)
  end.

Definition sliderMin (name : string) : number := (sliderConfig name).1.1.
Definition sliderMax (name : string) : number := (sliderConfig name).1.2.
Definition sliderStep (name : string) : number := (sliderConfig name).2.

(** The single thumb of the slider: [featureValues[name] || 0]. *)
Definition sliderValue (s : state) (name : string) : number :=
  orElse (featureValues s !! name) (Finite 0).

(** The number printed under the slider:
    [featureValues[name]?.toFixed(step < 1 ? 1 : 0)]. *)
Definition valueText (s : state) (name : string) : option number :=
  toFixedValue (if ltb (sliderStep name) (Finite 1) then 1 else 0)
    <$> featureValues s !! name.

Definition withinRange (name : string) (v : number) : bool :=
  leb (sliderMin name) v && leb v (sliderMax name).

(** The names the module imports; it defines no component besides
    [Dashboard] itself. *)
Definition importedNames : list string :=
  [ "useState"; "useEffect";
    "DropletIcon"; "AlertTriangleIcon"; "CheckCircleIcon"; "CloudRainIcon";
    "ThermometerIcon"; "BarChartIcon"; "WindIcon"; "Eye"; "ArrowRight";
    "Card"; "CardContent"; "CardDescription"; "CardFooter"; "CardHeader";
    "CardTitle";
    "Tabs"; "TabsContent"; "TabsList"; "TabsTrigger";
    "Slider"; "Button"; "toast"; "useToast"; "Navigation" ].

Definition isImported (identifier : string) : bool :=
  existsb (String.eqb identifier) importedNames.

(** What evaluating an identifier that is bound nowhere throws. *)
Inductive renderError : Type :=
  | ReferenceError (identifier : string).

(** The first of the component identifiers of a piece of markup, taken in
    the order the markup evaluates them, that is bound nowhere. *)
Definition firstUnbound (identifiers : list string) : option string :=
  List.find (fun identifier => negb (isImported identifier)) identifiers.

(** The components of the two result cards, and of the placeholder. *)
Definition cardsComponents (high : bool) : list string :=
  [ "Card"; "CardHeader"; "CardTitle";
    if high then "AlertTriangleIcon" else "CheckCircleIcon";
    "CardDescription"; "CardContent";
    "Card"; "CardHeader"; "CardTitle"; "BrainIcon";
    "CardDescription"; "CardContent" ].

Definition placeholderComponents : list string :=
  [ "BarChartIcon"; "Button" ].

(** The "Prediction Results" tab. *)
Inductive resultsView : Type :=
  | NoPredictionResultsYet
  | ResultCards (high : bool) (verdict : string) (insights : option string).

(** The markup of the tab is built inside the render of [Dashboard],
    whichever tab is selected; an unbound component makes that render
    throw. *)
Definition resultsTab (s : state) : renderError + resultsView :=
  let placeholder :=
    match firstUnbound placeholderComponents with
    | Some identifier => inl (ReferenceError identifier)
    | None => inr NoPredictionResultsYet
    end in
  match predictionResult s with
  | Some r =>
      if truthyString (Some r)
      then
        match firstUnbound (cardsComponents (includes "High" r)) with
        | Some identifier => inl (ReferenceError identifier)
        | None => inr (ResultCards (includes "High" r) r (aiInsights s))
        end
      else placeholder
  | None => placeholder
  end.

(** Whether the render of the page goes through.  Every other component
    of the markup is one of the imported names. *)
Definition renders (s : state) : bool :=
  match resultsTab s with
  | inr _ => true
  | inl _ => false
  end.

(** *** Events and steps *)

(** What can happen to a mounted dashboard: a slider reports a value, one
    of the two buttons is clicked, or a timer fires.  [PredictTimerFires]
    carries the value [Math.random()] returns inside the callback. *)
Inductive event : Type :=
  | SliderValueChange (name : string) (value : list number)
  | PredictClick
  | ResetClick
  | LoadTimerFires
  | PredictTimerFires (random : Q).

Section Steps.
Context `{Runtime}.

(** One event.  [None] means the event cannot be delivered in [s]: once
    the render has thrown the page is gone and with it every slider and
    button, there is a slider only for the names in [mockFeatureNames], a
    disabled button does not call its handler, and only a pending timer
    can fire.  The 2000 ms timers all have the same delay, so they fire in
    the order they were set. *)
Definition deliver (s : state) (e : event) : option state :=
  match e with
  | SliderValueChange name value =>
      if renders s then
        if decide (name ∈ mockFeatureNames)
        then Some (handleSliderChange name value s)
        else None
      else None
  | PredictClick =>
      if renders s then
        if predictButtonDisabled s then None else Some (handlePredict s)
      else None
  | ResetClick =>
      if renders s then
        if resetButtonDisabled s then None else Some (handleReset s)
      else None
  | LoadTimerFires =>
      if loadTimer s then Some (loadTimeout s) else None
  | PredictTimerFires random =>
      match predictTimers s with
      | captured :: rest =>
          Some (predictTimeout random captured
                  {| isLoaded := isLoaded s; isSubmitting := isSubmitting s;
                     featureValues := featureValues s;
                     predictionResult := predictionResult s;
                     aiInsights := aiInsights s;
                     loadTimer := loadTimer s; predictTimers := rest;
                     toasts := toasts s |})
      | [] => None
      end
  end.

Fixpoint run (s : state) (events : list event) : option state :=
  match events with
  | [] => Some s
  | e :: rest =>
      match deliver s e with
      | Some s' => run s' rest
      | None => None
      end
  end.

(** The dashboard after its first render and mount effect. *)
Definition mounted : state := mountEffect initial.

(** States the mounted dashboard reaches through events satisfying
    [allowed]. *)
Inductive reachableBy (allowed : event -> Prop) : state -> Prop :=
  | reach_mounted : reachableBy allowed mounted
  | reach_step s e s' :
      reachableBy allowed s -> allowed e -> deliver s e = Some s' ->
      reachableBy allowed s'.

Definition reachable : state -> Prop := reachableBy (fun _ => True).

End Steps.

(** A slider reports a value inside the range it was configured with. *)
Definition deliversInRange (e : event) : Prop :=
  match e with
  | SliderValueChange name value =>
      exists v, head value = Some v /\ withinRange name v = true
  | _ => True
  end.

(** *** Predicates on events and states *)

Definition isPredictClick (e : event) : bool :=
  match e with PredictClick => true | _ => false end.

Definition isPredictTimerFires (e : event) : bool :=
  match e with PredictTimerFires _ => true | _ => false end.

(** Either nothing is pending and the flag is down, or exactly one
    callback is pending and the flag is up. *)
Definition inFlight (s : state) : Prop :=
  (isSubmitting s = false /\ predictTimers s = []) \/
  (isSubmitting s = true /\ exists captured, predictTimers s = [captured]).

(** Every feature holds a value inside its range. *)
Definition storedWithinRange (values : gmap string number) : Prop :=
  forall name, name ∈ mockFeatureNames ->
    exists v, values !! name = Some v /\ withinRange name v = true.

(** A text chunk neither contains the byte pair [a], [b] nor ends in [a];
    a substitution is left to the runtime. *)
Definition chunkFree (a b : Ascii.ascii) (p : piece) : bool :=
  match p with
  | Text text => bool_decide (scan a b false text = Some false)
  | Subst _ => true
  end.

(** Everything the outer template prints before the heading. *)
Definition preamble : string :=
  nl +:+ "      🔍 Flood Prediction Analysis:" +:+ nl +:+
  "      " +:+ nl +:+
  "      Based on the provided environmental data, our model has identified the following:"
  +:+ nl +:+
  "      " +:+ nl +:+
  "      ".

Section Outputs.
Context `{Runtime}.

(** Both outputs are absent, or both come from one boolean. *)
Definition outputsAgree (s : state) : Prop :=
  (predictionResult s = None /\ aiInsights s = None) \/
  (exists isHigh values,
      predictionResult s = Some (result isHigh) /\
      aiInsights s = Some (insights isHigh values)).

(** [text] is the template chosen for [isHigh], filled with some values. *)
Definition isTemplate (isHigh : bool) (text : string) : Prop :=
  exists values, text = insights isHigh values.

End Outputs.

(** *** Icons, the fade-in of the parameters tab, and traces *)

Inductive icon : Type :=
  | CloudRainIcon
  | DropletIcon
  | ThermometerIcon
  | Eye
  | WindIcon
  | BarChartIcon.

Definition featureIcons : gmap string icon :=
  list_to_map
    [ ("Rainfall (mm)", CloudRainIcon);
      ("Water Level (m)", DropletIcon);
      ("Temperature (°C)", ThermometerIcon);
      ("Humidity (%)", Eye);
      ("Wind Speed (km/h)", WindIcon);
      ("River Discharge (m³/s)", BarChartIcon);
      ("Soil Moisture (%)", Eye);
      ("Elevation (m)", BarChartIcon) ].

(** [featureIcons[name] || Eye]. *)
Definition iconFor (name : string) : icon :=
  from_option id Eye (featureIcons !! name).

(** The class of the parameters tab. *)
Definition parametersTabClass (s : state) : string :=
  "space-y-8 transition-all duration-500 " +:+
  (if isLoaded s then "opacity-100 translate-y-0"
   else "opacity-0 translate-y-4").

Definition isLoadTimerFires (e : event) : bool :=
  match e with LoadTimerFires => true | _ => false end.

(** The toast an event shows when it is delivered. *)
Definition emittedToast (e : event) : option toastMessage :=
  match e with
  | ResetClick =>
      Some (ToastSuccess "All parameters have been reset to default values")
  | PredictTimerFires random => Some (riskToast (isHighRisk random))
  | _ => None
  end.

(** What an event does to the feature values when it is delivered. *)
Definition inputEffect (values : gmap string number) (e : event) :
    gmap string number :=
  match e with
  | SliderValueChange name value =>
      match head value with
      | Some v => <[name := v]> values
      | None => delete name values
      end
  | ResetClick => defaults
  | _ => values
  end.

End Dashboard.

(** ** The unmatched-route fallback *)

Module NotFound.

(** The text content of the rendered page. *)
Record view : Type := {
  title : string;
  message : string;
  linkTo : string;
  linkText : string
}.

Definition render : view :=
  {| title := "404";
     message := "The page you're looking for doesn't exist.";
     linkTo := "/";
     linkText := "Return Home" |}.

(** A call of [console.error] with its arguments. *)
Inductive consoleEntry : Type :=
  | ConsoleError (args : list string).

(** The body of the effect. *)
Definition logAttempt (pathname : string) : consoleEntry :=
  ConsoleError
    ["404 Error: User attempted to access non-existent route:"; pathname].

(** [useEffect(..., [location.pathname])]: the effect runs after the first
    render, and after a later render when the dependency differs from the
    one of the previous render.  [None] is a component that is not
    mounted. *)
Definition effectRuns (previous : option string) (pathname : string) : bool :=
  match previous with
  | None => true
  | Some before => negb (String.eqb before pathname)
  end.

(** The router's location, the dependency the mounted fallback last
    rendered with, and the diagnostic console. *)
Record state : Type := State {
  pathname : string;
  mountedWith : option string;
  console : list consoleEntry
}.

(** The last entry of the console belongs to the path the mounted
    fallback rendered with. *)
Definition lastLogged (s : state) : Prop :=
  forall path, mountedWith s = Some path ->
    last (console s) = Some (logAttempt path).

Section Router.

(** Whether one of the declared routes matches a pathname.  The route
    table lives in the application shell, which is not among the sources;
    the fallback is shown exactly when no declared route matches. *)
Variable matchesRoute : string -> bool.

(** What the router shows in place of the fallback is of no concern here. *)
Definition fallbackView (s : state) : option view :=
  if matchesRoute (pathname s) then None else Some render.

(** The location becomes [path]; the router renders, and effects run. *)
Definition navigate (path : string) (s : state) : state :=
  if matchesRoute path then
    {| pathname := path; mountedWith := None; console := console s |}
  else
    {| pathname := path; mountedWith := Some path;
       console :=
         if effectRuns (mountedWith s) path
         then console s ++ [logAttempt path]
         else console s |}.

(** The application is opened at [path]. *)
Definition load (path : string) : state :=
  navigate path {| pathname := path; mountedWith := None; console := [] |}.

Inductive reachable : state -> Prop :=
  | reach_load path : reachable (load path)
  | reach_navigate s path : reachable s -> reachable (navigate path s).

End Router.

(** Modelled from the spec: the route table of the application shell, which
    is not among the sources.  The spec declares two client-side routes,
    [/] and [/dashboard]; every other path is unmatched. *)
Definition declaredRoutes (path : string) : bool :=
  String.eqb path "/" || String.eqb path "/dashboard".

(** Every console entry is the log of an attempt on a path that no
    declared route matches. *)
Definition logsOnlyUnmatched (matchesRoute : string -> bool) (s : state) :
    Prop :=
  Forall (fun entry =>
            exists path, entry = logAttempt path /\ matchesRoute path = false)
    (console s).

End NotFound.

(** ** The navigation bar *)

Module Navigation.

Inductive navIcon : Type :=
  | HomeIcon
  | BarChart3Icon.

Record navItem : Type := {
  name : string;
  href : string;
  icon : navIcon
}.

Definition navItems : list navItem :=
  [ {| name := "Home"; href := "/"; icon := HomeIcon |};
    {| name := "Dashboard"; href := "/dashboard"; icon := BarChart3Icon |} ].

(** [location.pathname === item.href], which picks the highlighted classes
    of a link. *)
Definition isActive (pathname : string) (item : navItem) : bool :=
  String.eqb pathname (href item).

(** The names of the highlighted links, in the order they are rendered. *)
Definition activeNames (pathname : string) : list string :=
  name <$> List.filter (isActive pathname) navItems.

(** The location the bar reads and its one piece of hook state. *)
Record state : Type := State {
  pathname : string;
  mobileMenuOpen : bool
}.

(** [useState(false)]. *)
Definition initial (path : string) : state :=
  {| pathname := path; mobileMenuOpen := false |}.

(** The links of the mobile menu, which is rendered only while open. *)
Definition mobileLinks (s : state) : list navItem :=
  if mobileMenuOpen s then navItems else [].

(** The menu button is clicked, or the link at some position of the mobile
    menu is. *)
Inductive event : Type :=
  | MenuButtonClick
  | MobileLinkClick (position : nat).

(** One event; [None] when the clicked link is not rendered.  A link moves
    the location to its [href], and its [onClick] closes the menu. *)
Definition deliver (s : state) (e : event) : option state :=
  match e with
  | MenuButtonClick =>
      Some {| pathname := pathname s;
              mobileMenuOpen := negb (mobileMenuOpen s) |}
  | MobileLinkClick position =>
      match mobileLinks s !! position with
      | Some item => Some {| pathname := href item; mobileMenuOpen := false |}
      | None => None
      end
  end.

Fixpoint run (s : state) (events : list event) : option state :=
  match events with
  | [] => Some s
  | e :: rest =>
      match deliver s e with
      | Some s' => run s' rest
      | None => None
      end
  end.

Definition isMenuButtonClick (e : event) : bool :=
  match e with MenuButtonClick => true | _ => false end.

End Navigation.

(** ** A runtime and a session to run the definitions on *)

Module Sample.
Import Dashboard.

Definition printInteger (z : Z) : string :=
  NilZero.string_of_int (Z.to_int z).

(** [t / 10] in decimal notation, for an integer [t]. *)
Definition printTenths (t : Z) : string :=
  (if (t <? 0)%Z then "-" else "") +:+
  printInteger (Z.abs t / 10) +:+
  (if (Z.abs t mod 10 =? 0)%Z then ""
   else "." +:+ printInteger (Z.abs t mod 10)).

(** [Number::toString] on the numbers the sliders of this page produce,
    which have at most one decimal digit: [50], [2.5], [-0.5].  Any other
    finite number is printed as a fraction, which is a stand-in and not
    what an engine prints. *)
Definition print (x : number) : string :=
  match x with
  | Finite q =>
      let t := Qred (q * 10) in
      if (Z.pos (Qden t) =? 1)%Z then printTenths (Qnum t)
      else printInteger (Qnum (Qred q)) +:+ "/" +:+
           printInteger (Z.pos (Qden (Qred q)))
  | NaN => "NaN"
  | PosInfinity => "Infinity"
  | NegInfinity => "-Infinity"
  end.

Definition runtime : Runtime := {| numberToString := print |}.

Section Session.
Existing Instance runtime.

(** The predict button has been clicked on the fresh page. *)
Definition pending : state := handlePredict mounted.

(** A click, then the rainfall slider is dragged to its maximum while the
    timer is pending, then the timer fires with a draw of 0.9. *)
Definition session : list event :=
  [ PredictClick;
    SliderValueChange "Rainfall (mm)" [Finite 300];
    PredictTimerFires 0.9 ].

Definition shown : state := from_option id mounted (run mounted session).

(** The temperature slider is dragged below zero. *)
Definition chilled : state :=
  handleSliderChange "Temperature (°C)" [Finite (-2.5)] mounted.

End Session.

End Sample.

(** ** Properties of the JavaScript values *)

Module JSProps.

(** *** Rounding *)

Section Rounding.
Local Open Scope Q_scope.

Lemma scale_pos (digits : nat) : 0 < inject_Z (10 ^ Z.of_nat digits).
Proof.
  change 0 with (inject_Z 0). rewrite <- Zlt_Qlt.
  apply Z.pow_pos_nonneg; lia.
Qed.

Lemma floor_half_between (a b : Z) (t : Q) :
  inject_Z a <= t -> t <= inject_Z b ->
  (a <= Qfloor (t + (1 # 2)) <= b)%Z.
Proof.
  intros Ha Hb. split.
  - rewrite <- (Qfloor_Z a). apply Qfloor_resp_le. lra.
  - apply Z.lt_succ_r. rewrite Zlt_Qlt.
    eapply Qle_lt_trans; [apply Qfloor_le |].
    unfold Z.succ. rewrite inject_Z_plus. change (inject_Z 1) with 1. lra.
Qed.

Lemma nearest_between (digits : nat) (a b : Z) (q : Q) :
  inject_Z a <= q -> q <= inject_Z b ->
  let scale := inject_Z (10 ^ Z.of_nat digits) in
  inject_Z a <= inject_Z (Qfloor (q * scale + (1 # 2))) / scale <= inject_Z b.
Proof.
  intros Ha Hb scale.
  pose proof (scale_pos digits) as Hpos. fold scale in Hpos.
  destruct (floor_half_between (a * 10 ^ Z.of_nat digits)
              (b * 10 ^ Z.of_nat digits) (q * scale)) as [Hlo Hhi].
  { rewrite inject_Z_mult. apply Qmult_le_compat_r; [done | by apply Qlt_le_weak]. }
  { rewrite inject_Z_mult. apply Qmult_le_compat_r; [done | by apply Qlt_le_weak]. }
  split.
  - apply Qle_shift_div_l; [done |].
    unfold scale. by rewrite <- inject_Z_mult, <- Zle_Qle.
  - apply Qle_shift_div_r; [done |].
    unfold scale. by rewrite <- inject_Z_mult, <- Zle_Qle.
Qed.

(** Rounding stays between two integers that enclose the number. *)
Lemma roundHalfAway_between (digits : nat) (a b : Z) (q : Q) :
  inject_Z a <= q -> q <= inject_Z b ->
  inject_Z a <= roundHalfAway digits q <= inject_Z b.
Proof.
  intros Ha Hb. unfold roundHalfAway.
  destruct (Qle_bool 0 q).
  - by apply nearest_between.
  - destruct (nearest_between digits (- b) (- a) (- q)) as [Hlo Hhi].
    { rewrite inject_Z_opp. lra. }
    { rewrite inject_Z_opp. lra. }
    rewrite inject_Z_opp in Hlo, Hhi. cbv zeta in Hlo, Hhi. split; lra.
Qed.

End Rounding.

Lemma toFixedValue_between (digits : nat) (a b : Z) (x : number) :
  leb (Finite (inject_Z a)) x = true -> leb x (Finite (inject_Z b)) = true ->
  leb (Finite (inject_Z a)) (toFixedValue digits x) = true /\
  leb (toFixedValue digits x) (Finite (inject_Z b)) = true.
Proof.
  destruct x as [q | | |]; try done. cbn [leb toFixedValue].
  intros Ha Hb. destruct (Qle_bool _ (Qabs q)); [done |]. cbn [leb].
  apply Qle_bool_iff in Ha, Hb. rewrite !Qle_bool_iff.
  by apply roundHalfAway_between.
Qed.

(** *** Truthiness

    A falsy number that lies in a range is zero, and zero lies in it. *)
Lemma orElse_zero_between (lo hi v : number) :
  leb lo v = true -> leb v hi = true ->
  leb lo (orElse (Some v) (Finite 0)) = true /\
  leb (orElse (Some v) (Finite 0)) hi = true.
Proof.
  intros Hlo Hhi. cbn [orElse]. destruct (truthy v) eqn:Ht; [done |].
  destruct v as [q | | |]; try done.
  cbn in Ht. apply negb_false_iff, Qeq_bool_iff in Ht.
  destruct lo as [a | | |], hi as [b | | |]; try done; cbn [leb] in *;
    rewrite ?Qle_bool_iff in *; rewrite <- ?Ht; done.
Qed.

(** *** Strings *)

Lemma append_nil (b : string) : "" +:+ b = b.
Proof. reflexivity. Qed.

Lemma append_cons (x : Ascii.ascii) (a b : string) :
  String x a +:+ b = String x (a +:+ b).
Proof. reflexivity. Qed.

Lemma append_assoc (a b c : string) : (a +:+ b) +:+ c = a +:+ b +:+ c.
Proof.
  induction a as [| x a IH]; [done |]. rewrite !append_cons. by f_equal.
Qed.

Lemma prefix_append (n rest : string) : String.prefix n (n +:+ rest) = true.
Proof.
  induction n as [| x n IH]; [by destruct rest |].
  rewrite append_cons. cbn.
  destruct (Ascii.ascii_dec x x); [exact IH | done].
Qed.

Lemma includes_append (n before after : string) :
  includes n (before +:+ n +:+ after) = true.
Proof.
  induction before as [| x before IH].
  - rewrite append_nil.
    destruct (n +:+ after) eqn:E; cbn [includes]; rewrite <- E, prefix_append; done.
  - rewrite append_cons. cbn [includes]. rewrite IH. apply orb_true_r.
Qed.

Lemma scan_append (a b : Ascii.ascii) (previous : bool) (s1 s2 : string) :
  scan a b previous (s1 +:+ s2) =
  match scan a b previous s1 with
  | Some p => scan a b p s2
  | None => None
  end.
Proof.
  revert previous. induction s1 as [| c s1 IH]; intros previous; [done |].
  rewrite append_cons. cbn.
  destruct (previous && Ascii.eqb c b); [done | apply IH].
Qed.

Lemma scan_ascii (a b : Ascii.ascii) (s : string) :
  isAscii a = false -> asciiOnly s = true -> scan a b false s = Some false.
Proof.
  intros Ha. induction s as [| c s IH]; cbn; [done |].
  intros [Hc Hs]%andb_prop.
  destruct (Ascii.eqb_spec c a) as [-> | _]; [congruence | by apply IH].
Qed.

Lemma includes_scan (a b : Ascii.ascii) (n hay : string) (previous : bool) :
  includes (String a (String b n)) hay = true -> scan a b previous hay = None.
Proof.
  revert previous. induction hay as [| c hay IH]; intros previous; [done |].
  cbn [includes]. intros [Hp | Hi]%orb_prop.
  - cbn in Hp. destruct (Ascii.ascii_dec a c) as [<- |]; [| done].
    destruct hay as [| d hay]; [done |]. cbn in Hp.
    destruct (Ascii.ascii_dec b d) as [<- |]; [| done].
    cbn. destruct (previous && Ascii.eqb a b); [done |].
    by rewrite !Ascii.eqb_refl.
  - cbn. destruct (previous && Ascii.eqb c b); [done | by apply IH].
Qed.

Lemma asciiOnly_append (a b : string) :
  asciiOnly (a +:+ b) = asciiOnly a && asciiOnly b.
Proof.
  induction a as [| c a IH]; [done |]. rewrite append_cons. cbn.
  by rewrite IH, andb_assoc.
Qed.

End JSProps.

(** ** Properties of the dashboard *)

Module DashboardProps.
Import Dashboard JSProps.

Example includes_High : includes "High" (result true) = true.
Proof. reflexivity. Qed.

Example includes_High_low : includes "High" (result false) = false.
Proof. reflexivity. Qed.

Example isHighRisk_half : isHighRisk 0.5 = false.
Proof. reflexivity. Qed.

Example isHighRisk_above : isHighRisk 0.51 = true.
Proof. reflexivity. Qed.

(** *** Reset *)

(** C4: whatever the state, after [handleReset] each of the eight feature
    names is mapped to its default from [featureDefaults] (50, 2, 25, 60,
    15, 100, 40, 50), and the object holds nothing else. *)
Theorem handleReset_restores_defaults (s : state) :
  let values := featureValues (handleReset s) in
  values !! "Rainfall (mm)" = Some (Finite 50) /\
  values !! "Water Level (m)" = Some (Finite 2) /\
  values !! "Temperature (°C)" = Some (Finite 25) /\
  values !! "Humidity (%)" = Some (Finite 60) /\
  values !! "Wind Speed (km/h)" = Some (Finite 15) /\
  values !! "River Discharge (m³/s)" = Some (Finite 100) /\
  values !! "Soil Moisture (%)" = Some (Finite 40) /\
  values !! "Elevation (m)" = Some (Finite 50) /\
  (fun name => values !! name) <$> mockFeatureNames =
    (fun name => default <$> featureDefaults !! name) <$> mockFeatureNames /\
  dom values = list_to_set mockFeatureNames.
Proof.
  cbn -[defaults mockFeatureNames featureDefaults].
  repeat split; vm_compute; reflexivity.
Qed.

(** *** Slider changes *)

(** C9: [handleSliderChange n v] stores [v[0]] under [n] and changes
    nothing else: every other feature, the verdict, the insight text, the
    submitting flag, the load flag, the pending timers and the toasts are
    as before. *)
Theorem handleSliderChange_frame (n : string) (v : list number) (s : state) :
  let s' := handleSliderChange n v s in
  featureValues s' !! n = head v /\
  (forall m, m <> n -> featureValues s' !! m = featureValues s !! m) /\
  predictionResult s' = predictionResult s /\
  aiInsights s' = aiInsights s /\
  isSubmitting s' = isSubmitting s /\
  isLoaded s' = isLoaded s /\
  loadTimer s' = loadTimer s /\
  predictTimers s' = predictTimers s /\
  toasts s' = toasts s.
Proof.
  cbn. split; [| split; [| tauto]].
  - destruct (head v).
    + apply lookup_insert_eq.
    + apply lookup_delete_eq.
  - intros m Hm. destruct (head v).
    + by rewrite lookup_insert_ne.
    + by rewrite lookup_delete_ne.
Qed.

Section Invariants.
Context `{Runtime}.

(** *** Case analysis on one delivered event *)

Lemma deliver_cases (P : state -> Prop) (s s' : state) (e : event) :
  deliver s e = Some s' ->
  (forall name value,
      e = SliderValueChange name value -> name ∈ mockFeatureNames ->
      P (handleSliderChange name value s)) ->
  (e = PredictClick -> isSubmitting s = false -> P (handlePredict s)) ->
  (e = ResetClick -> isSubmitting s = false -> P (handleReset s)) ->
  (e = LoadTimerFires -> loadTimer s = true -> P (loadTimeout s)) ->
  (forall random captured rest,
      e = PredictTimerFires random -> predictTimers s = captured :: rest ->
      P (predictTimeout random captured
           (State (isLoaded s) (isSubmitting s) (featureValues s)
              (predictionResult s) (aiInsights s) (loadTimer s) rest
              (toasts s)))) ->
  P s'.
Proof.
  intros Hd Hslide Hpredict Hreset Hload Hfire.
  destruct e as [name value | | | | random]; cbn [deliver] in Hd.
  - destruct (renders s); [| discriminate].
    destruct (decide (name ∈ mockFeatureNames)); [| discriminate].
    injection Hd as <-. by eapply Hslide.
  - destruct (renders s); [| discriminate].
    unfold predictButtonDisabled in Hd.
    destruct (isSubmitting s) eqn:E; [discriminate |].
    injection Hd as <-. by apply Hpredict.
  - destruct (renders s); [| discriminate].
    unfold resetButtonDisabled in Hd.
    destruct (isSubmitting s) eqn:E; [discriminate |].
    injection Hd as <-. by apply Hreset.
  - destruct (loadTimer s) eqn:E; [| discriminate].
    injection Hd as <-. by apply Hload.
  - destruct (predictTimers s) as [| captured rest] eqn:E; [discriminate |].
    injection Hd as <-. by eapply Hfire.
Qed.

Lemma deliver_PredictClick (s s1 : state) :
  deliver s PredictClick = Some s1 ->
  renders s = true /\ isSubmitting s = false /\ s1 = handlePredict s.
Proof.
  cbn [deliver]. unfold predictButtonDisabled.
  destruct (renders s); [| discriminate].
  destruct (isSubmitting s); [discriminate |]. by intros [= <-].
Qed.

Lemma deliver_ResetClick (s s1 : state) :
  deliver s ResetClick = Some s1 ->
  renders s = true /\ isSubmitting s = false /\ s1 = handleReset s.
Proof.
  cbn [deliver]. unfold resetButtonDisabled.
  destruct (renders s); [| discriminate].
  destruct (isSubmitting s); [discriminate |]. by intros [= <-].
Qed.

Lemma reachableBy_weaken (P Q : event -> Prop) (s : state) :
  (forall e, P e -> Q e) -> reachableBy P s -> reachableBy Q s.
Proof.
  intros HPQ. induction 1 as [| s e s' _ IH He Hd].
  - constructor.
  - eapply reach_step; eauto.
Qed.

Lemma reachableBy_reachable (P : event -> Prop) (s : state) :
  reachableBy P s -> reachable s.
Proof. by apply reachableBy_weaken. Qed.

Lemma reachable_run (P : event -> Prop) (s s' : state) (events : list event) :
  reachableBy P s -> Forall P events -> run s events = Some s' ->
  reachableBy P s'.
Proof.
  intros Hs Hall. revert s Hs.
  induction Hall as [| e events He _ IH]; intros s Hs Hrun; cbn in Hrun.
  - by injection Hrun as <-.
  - destruct (deliver s e) as [s1 |] eqn:Hd; [| discriminate].
    eapply IH; [| exact Hrun]. eapply reach_step; eauto.
Qed.

(** *** The pending timer and the submitting flag *)

Lemma inFlight_reachable (s : state) : reachable s -> inFlight s.
Proof.
  induction 1 as [| s e s' _ IH _ Hd].
  - left. done.
  - eapply (deliver_cases inFlight) in Hd; [exact Hd | ..].
    + intros name value _ _. exact IH.
    + intros _ Hsub. destruct IH as [[_ Ht] | [Ht _]]; [| congruence].
      right. cbn. rewrite Ht. eauto.
    + intros _ Hsub. destruct IH as [[_ Ht] | [Ht _]]; [| congruence].
      left. done.
    + intros _ _. exact IH.
    + intros random captured rest _ Ht.
      destruct IH as [[_ Hnil] | [_ [c Hc]]]; [congruence |].
      left. cbn. split; [done |]. congruence.
Qed.

(** *** The verdict and the insight text *)

Lemma outputsAgree_reachable (s : state) : reachable s -> outputsAgree s.
Proof.
  induction 1 as [| s e s' _ IH _ Hd].
  - left. done.
  - eapply (deliver_cases outputsAgree) in Hd; [exact Hd | ..]; try done.
    + intros _ _. left. done.
    + intros random captured rest _ _. right.
      exists (isHighRisk random), captured. done.
Qed.

(** *** The verdict *)

Lemma deliver_fire_verdict (s s' : state) (random : Q) :
  deliver s (PredictTimerFires random) = Some s' ->
  predictionResult s' = Some (result (isHighRisk random)).
Proof.
  cbn. destruct (predictTimers s); [discriminate |]. by intros [= <-].
Qed.

(** C1: the verdict is a function of the random draw alone.  Two timer
    callbacks run with the same draw store the same [predictionResult],
    whatever feature values they captured and whatever states they run in;
    the same holds for the timer event of the step function. *)
Theorem verdict_depends_only_on_draw
    (random : Q) (captured1 captured2 : gmap string number) (s1 s2 : state) :
  predictionResult (predictTimeout random captured1 s1) =
    predictionResult (predictTimeout random captured2 s2) /\
  (forall s1' s2',
      deliver s1 (PredictTimerFires random) = Some s1' ->
      deliver s2 (PredictTimerFires random) = Some s2' ->
      predictionResult s1' = predictionResult s2').
Proof.
  split; [reflexivity |].
  intros s1' s2' H1 H2.
  apply deliver_fire_verdict in H1, H2. congruence.
Qed.

(** No event other than its own firing removes a pending timer. *)
Lemma timer_not_cancelable (s s' : state) (e : event) :
  (forall random, e <> PredictTimerFires random) ->
  deliver s e = Some s' ->
  predictTimers s `prefix_of` predictTimers s'.
Proof.
  intros Hne Hd.
  eapply (deliver_cases (fun s' => predictTimers s `prefix_of` predictTimers s'))
    in Hd; [exact Hd | ..]; cbn; try done.
  - intros _ _. by apply prefix_app_r.
  - intros random captured rest -> _. by destruct (Hne random).
Qed.

(** While it waits, the pending callback keeps the values it closed over. *)
Lemma pending_keeps_capture (captured : gmap string number) (s s' : state)
    (events : list event) :
  isSubmitting s = true -> predictTimers s = [captured] ->
  forallb (fun e => negb (isPredictTimerFires e)) events = true ->
  run s events = Some s' ->
  isSubmitting s' = true /\ predictTimers s' = [captured].
Proof.
  revert s. induction events as [| e events IH]; intros s Hsub Ht Hall Hrun.
  - cbn in Hrun. by injection Hrun as <-.
  - cbn in Hall, Hrun. apply andb_prop in Hall as [He Hall].
    destruct (deliver s e) as [s1 |] eqn:Hd; [| discriminate].
    assert (isSubmitting s1 = true /\ predictTimers s1 = [captured])
      as [Hsub1 Ht1].
    { eapply (deliver_cases
                (fun s1 => isSubmitting s1 = true /\
                           predictTimers s1 = [captured])) in Hd;
        [exact Hd | ..]; try done; try congruence.
      intros random c rest -> _. discriminate. }
    by apply (IH s1).
Qed.

(** C2: a string stored as the verdict is one of the two fixed strings.
    In every reachable state [predictionResult] is [null] or one of them.
    After a click on the enabled predict button the timer stays pending
    through whatever else happens, it can fire for every draw, and when it
    fires one of the two strings is stored. *)
Theorem verdict_is_one_of_two (s : state) :
  reachable s ->
  (predictionResult s = None \/
   predictionResult s = Some "🚨 High Flood Risk Level!" \/
   predictionResult s = Some "✅ Low Flood Risk Level.") /\
  (forall s1 events s2,
      deliver s PredictClick = Some s1 ->
      forallb (fun e => negb (isPredictTimerFires e)) events = true ->
      run s1 events = Some s2 ->
      forall random, exists s3,
        deliver s2 (PredictTimerFires random) = Some s3 /\
        (predictionResult s3 = Some "🚨 High Flood Risk Level!" \/
         predictionResult s3 = Some "✅ Low Flood Risk Level.")).
Proof.
  intros Hs. split.
  - destruct (outputsAgree_reachable s Hs) as [[-> _] | (b & v & -> & _)];
      [by left | right].
    destruct b; [by left | by right].
  - intros s1 events s2 Hd Hall Hrun random.
    apply deliver_PredictClick in Hd as (_ & Hsub & ->).
    destruct (inFlight_reachable s Hs) as [[_ Hnil] | [Ht _]]; [| congruence].
    destruct (pending_keeps_capture (featureValues s) (handlePredict s) s2
                events) as [_ Ht2]; try done.
    { cbn. by rewrite Hnil. }
    cbn. rewrite Ht2. eexists. split; [reflexivity |].
    cbn. destruct (isHighRisk random); [by left | by right].
Qed.

(** *** At most one prediction in flight *)

(** C10: in every reachable state at most one callback is pending, and one
    is pending exactly when [isSubmitting] is set.  While it is set both
    buttons are disabled, neither click is delivered, and the pending timer
    can fire for every draw, which lowers the flag again. *)
Theorem one_prediction_in_flight (s : state) :
  reachable s ->
  length (predictTimers s) <= 1 /\
  (isSubmitting s = true <-> predictTimers s <> []) /\
  (isSubmitting s = true ->
     predictButtonDisabled s = true /\
     resetButtonDisabled s = true /\
     deliver s PredictClick = None /\
     deliver s ResetClick = None /\
     forall random, exists s',
       deliver s (PredictTimerFires random) = Some s' /\
       isSubmitting s' = false /\ predictTimers s' = []).
Proof.
  intros Hs.
  destruct (inFlight_reachable s Hs) as [[Hsub Hnil] | [Hsub [c Hc]]].
  - rewrite Hsub, Hnil. cbn. split; [lia |]. split; [| done].
    split; [done |]. by intros [].
  - rewrite Hc. cbn [length]. split; [lia |]. split; [by rewrite Hsub |].
    intros _. cbn [deliver]. unfold predictButtonDisabled, resetButtonDisabled.
    rewrite Hsub, Hc. split; [done |]. split; [done |].
    split; [by destruct (renders s) |]. split; [by destruct (renders s) |].
    intros random. eexists. by repeat split.
Qed.

(** *** Reset clears the outputs *)

Lemma cleared_stays_cleared (s s' : state) (events : list event) :
  predictionResult s = None -> aiInsights s = None -> predictTimers s = [] ->
  forallb (fun e => negb (isPredictClick e)) events = true ->
  run s events = Some s' ->
  predictionResult s' = None /\ aiInsights s' = None /\ predictTimers s' = [].
Proof.
  revert s. induction events as [| e events IH]; intros s Hr Ha Ht Hall Hrun.
  - cbn in Hrun. by injection Hrun as <-.
  - cbn in Hall, Hrun. apply andb_prop in Hall as [He Hall].
    destruct (deliver s e) as [s1 |] eqn:Hd; [| discriminate].
    assert (predictionResult s1 = None /\ aiInsights s1 = None /\
            predictTimers s1 = []) as (Hr1 & Ha1 & Ht1).
    { eapply (deliver_cases
                (fun s1 => predictionResult s1 = None /\ aiInsights s1 = None /\
                           predictTimers s1 = [])) in Hd;
        [exact Hd | ..]; try done.
      - intros -> _. discriminate.
      - intros random captured rest _ Hc. congruence. }
    by apply (IH s1).
Qed.

(** C8: after [handleReset], in whatever state it runs, [predictionResult]
    and [aiInsights] are both [null] and the results tab renders the
    placeholder.  After a click on the reset button in a reachable state
    this stays so through every sequence of events that has no click on
    the predict button. *)
Theorem handleReset_clears_outputs (s : state) :
  predictionResult (handleReset s) = None /\
  aiInsights (handleReset s) = None /\
  resultsTab (handleReset s) = inr NoPredictionResultsYet /\
  (reachable s ->
   forall s1 events s2,
     deliver s ResetClick = Some s1 ->
     forallb (fun e => negb (isPredictClick e)) events = true ->
     run s1 events = Some s2 ->
     predictionResult s2 = None /\ aiInsights s2 = None /\
     resultsTab s2 = inr NoPredictionResultsYet).
Proof.
  split; [done |]. split; [done |]. split; [done |].
  intros Hs s1 events s2 Hd Hall Hrun.
  apply deliver_ResetClick in Hd as (_ & Hsub & ->).
  destruct (inFlight_reachable s Hs) as [[_ Hnil] | [Ht _]]; [| congruence].
  destruct (cleared_stays_cleared (handleReset s) s2 events)
    as (Hr & Ha & _); try done.
  unfold resultsTab. by rewrite Hr.
Qed.

End Invariants.

(** *** Rendering templates *)

Section Templates.
Context `{Runtime}.

Lemma render_cons (values : gmap string number) (p : piece) (t : list piece) :
  render values (p :: t) = renderPiece values p +:+ render values t.
Proof. reflexivity. Qed.

Lemma render_app (values : gmap string number) (t1 t2 : list piece) :
  render values (t1 ++ t2) = render values t1 +:+ render values t2.
Proof.
  induction t1 as [| p t1 IH]; [done |].
  rewrite <- app_comm_cons, !render_cons, IH. symmetry. apply append_assoc.
Qed.

(** A rendered template depends on the values only through the names it
    substitutes. *)
Lemma render_ext (values values' : gmap string number) (template : list piece) :
  Forall (fun name => values !! name = values' !! name) (substitutions template) ->
  render values template = render values' template.
Proof.
  induction template as [| [text | name] template IH]; intros Hall; [done | |];
    rewrite !render_cons; cbn in *.
  - f_equal. by apply IH.
  - apply Forall_cons in Hall as [-> Hall]. f_equal. by apply IH.
Qed.

(** Every substituted name is printed inside the rendered template. *)
Lemma render_subst_occurs (values : gmap string number) (template : list piece)
    (name : string) :
  name ∈ substitutions template ->
  exists before after,
    render values template = before +:+ interpolate (values !! name) +:+ after.
Proof.
  induction template as [| [text | name'] template IH]; intros Hin;
    [by apply elem_of_nil in Hin | |]; rewrite render_cons; cbn in *.
  - destruct (IH Hin) as (before & after & ->).
    exists (text +:+ before), after. by rewrite append_assoc.
  - apply elem_of_cons in Hin as [-> | Hin].
    + by exists "", (render values template).
    + destruct (IH Hin) as (before & after & ->).
      exists (interpolate (values !! name') +:+ before), after.
      by rewrite append_assoc.
Qed.

Lemma render_scan (a b : Ascii.ascii) (values : gmap string number)
    (template : list piece) :
  isAscii a = false ->
  (forall x, asciiOnly (numberToString x) = true) ->
  forallb (chunkFree a b) template = true ->
  scan a b false (render values template) = Some false.
Proof.
  intros Ha Hprint. induction template as [| p template IH]; [done |].
  cbn [forallb]. intros [Hp Hall]%andb_prop.
  rewrite render_cons, scan_append.
  destruct p as [text | name]; cbn [renderPiece chunkFree] in *.
  - apply bool_decide_eq_true in Hp. rewrite Hp. by apply IH.
  - rewrite scan_ascii; [by apply IH | done |].
    unfold interpolate. by destruct (values !! name).
Qed.

(** *** The shape of the insight text *)

Lemma insights_shape (isHigh : bool) (values : gmap string number) :
  exists after, insights isHigh values = preamble +:+ heading isHigh +:+ after.
Proof.
  exists (render values
            ([Text nl; Text "      "] ++ factors isHigh ++
             [ Text nl; Text "      "; Text nl;
               Text "      Recommendations:"; Text nl;
               Text "      "; Text (recommendations isHigh); Text nl;
               Text "      " ])).
  reflexivity.
Qed.

Lemma insights_includes_heading (isHigh : bool) (values : gmap string number) :
  includes (heading isHigh) (insights isHigh values) = true.
Proof.
  destruct (insights_shape isHigh values) as [after ->].
  apply includes_append.
Qed.

Lemma insights_distinct (values values' : gmap string number) :
  insights true values <> insights false values'.
Proof.
  destruct (insights_shape true values) as [after ->].
  destruct (insights_shape false values') as [after' ->].
  intros Heq. apply (inj (String.append preamble)) in Heq.
  apply (f_equal (String.get 1)) in Heq. vm_compute in Heq. discriminate.
Qed.

Lemma result_inj (b b' : bool) : result b = result b' -> b = b'.
Proof. by destruct b, b'. Qed.

Lemma insights_excludes_other_heading (isHigh : bool)
    (values : gmap string number) :
  (forall x, asciiOnly (numberToString x) = true) ->
  includes (heading (negb isHigh)) (insights isHigh values) = false.
Proof.
  intros Hprint. apply not_true_is_false. intros Hin.
  destruct isHigh; cbn [negb] in Hin.
  - change (heading false)
      with (String (Ascii.ascii_of_nat 226) (String (Ascii.ascii_of_nat 156)
              (String.substring 2 100 (heading false)))) in Hin.
    apply (includes_scan _ _ _ _ false) in Hin.
    unfold insights in Hin. rewrite render_scan in Hin; done.
  - change (heading true)
      with (String (Ascii.ascii_of_nat 226) (String (Ascii.ascii_of_nat 154)
              (String.substring 2 100 (heading true)))) in Hin.
    apply (includes_scan _ _ _ _ false) in Hin.
    unfold insights in Hin. rewrite render_scan in Hin; done.
Qed.

(** *** The insight text agrees with the verdict *)

(** C5: in every reachable state the two outputs are set together, and
    once a verdict is stored the insight text is the high-risk template
    exactly when the verdict is the high-risk string, and the low-risk
    template exactly when it is the low-risk string.  Each template
    contains its own heading; when numbers print in ASCII, the heading
    found in the text also decides the verdict. *)
Theorem insights_agree_with_verdict (s : state) :
  reachable s ->
  (predictionResult s = None <-> aiInsights s = None) /\
  forall verdict,
    predictionResult s = Some verdict ->
    exists text,
      aiInsights s = Some text /\
      (isTemplate true text <-> verdict = "🚨 High Flood Risk Level!") /\
      (isTemplate false text <-> verdict = "✅ Low Flood Risk Level.") /\
      (isTemplate true text -> includes "⚠️ Key risk factors:" text = true) /\
      (isTemplate false text -> includes "✓ Favorable conditions:" text = true) /\
      ((forall x, asciiOnly (numberToString x) = true) ->
       (includes "⚠️ Key risk factors:" text = true <->
          verdict = "🚨 High Flood Risk Level!") /\
       (includes "✓ Favorable conditions:" text = true <->
          verdict = "✅ Low Flood Risk Level.")).
Proof.
  intros Hs.
  destruct (outputsAgree_reachable s Hs) as [[Hr Ha] | (b & v & Hr & Ha)].
  { rewrite Hr, Ha. split; [done |]. intros verdict [=]. }
  rewrite Hr, Ha. split; [done |].
  intros verdict [= <-]. exists (insights b v). split; [done |].
  assert (forall b', isTemplate b' (insights b v) <-> b' = b) as Htemplate.
  { intros b'. split; [| intros ->; by exists v].
    intros [v' Heq]. destruct b, b'; try done.
    all: first [ by apply insights_distinct in Heq
               | symmetry in Heq; by apply insights_distinct in Heq ]. }
  assert (forall b', result b = result b' <-> b' = b) as Hresult.
  { intros b'. split; [by intros ->%result_inj | by intros ->]. }
  change "🚨 High Flood Risk Level!" with (result true).
  change "✅ Low Flood Risk Level." with (result false).
  change "⚠️ Key risk factors:" with (heading true).
  change "✓ Favorable conditions:" with (heading false).
  rewrite !Htemplate, !Hresult.
  split; [done |]. split; [done |].
  split; [intros <-; apply insights_includes_heading |].
  split; [intros <-; apply insights_includes_heading |].
  intros Hprint.
  pose proof (insights_includes_heading b v) as Hown.
  pose proof (insights_excludes_other_heading b v Hprint) as Hother.
  destruct b; cbn [negb] in Hother; rewrite Hown, Hother; split; split; done.
Qed.

(** *** What the insight text interpolates *)

(** C3, as the code has it: the high-risk template interpolates three
    feature values (rainfall, water level, humidity) and the low-risk
    template two (rainfall, water level).  Each of them is printed inside
    the text, the text depends on no other value, and the values are those
    of the render in which the predict button was clicked, whatever the
    sliders report while the timer is pending. *)
Theorem insights_interpolate_captured_values :
  substitutions (insightsTemplate true) =
    ["Rainfall (mm)"; "Water Level (m)"; "Humidity (%)"] /\
  substitutions (insightsTemplate false) =
    ["Rainfall (mm)"; "Water Level (m)"] /\
  (forall isHigh values name,
      name ∈ substitutions (insightsTemplate isHigh) ->
      exists before after,
        insights isHigh values =
        before +:+ interpolate (values !! name) +:+ after) /\
  (forall isHigh values values',
      Forall (fun name => values !! name = values' !! name)
        (substitutions (insightsTemplate isHigh)) ->
      insights isHigh values = insights isHigh values') /\
  (forall s s1 events s2 random s3,
      reachable s ->
      deliver s PredictClick = Some s1 ->
      forallb (fun e => negb (isPredictTimerFires e)) events = true ->
      run s1 events = Some s2 ->
      deliver s2 (PredictTimerFires random) = Some s3 ->
      aiInsights s3 = Some (insights (isHighRisk random) (featureValues s))).
Proof.
  split; [reflexivity |]. split; [reflexivity |].
  split; [intros; by apply render_subst_occurs |].
  split; [intros; by apply render_ext |].
  intros s s1 events s2 random s3 Hs Hclick Hall Hrun Hfire.
  apply deliver_PredictClick in Hclick as (_ & Hsub & ->).
  destruct (inFlight_reachable s Hs) as [[_ Hnil] | [Ht _]]; [| congruence].
  destruct (pending_keeps_capture (featureValues s) (handlePredict s) s2 events)
    as [_ Ht2]; try done.
  { cbn. by rewrite Hnil. }
  cbn in Hfire. rewrite Ht2 in Hfire. by injection Hfire as <-.
Qed.

End Templates.

(** C3 as stated fails: it is not the case that both templates interpolate
    three feature values; the low-risk template interpolates two. *)
Lemma low_risk_template_interpolates_two :
  ~ (forall isHigh, length (substitutions (insightsTemplate isHigh)) = 3).
Proof. intros Hall. specialize (Hall false). discriminate. Qed.

(** *** Slider bounds *)

Lemma feature_name_cases (P : string -> Prop) :
  P "Rainfall (mm)" -> P "Water Level (m)" -> P "Temperature (°C)" ->
  P "Humidity (%)" -> P "Wind Speed (km/h)" -> P "River Discharge (m³/s)" ->
  P "Soil Moisture (%)" -> P "Elevation (m)" ->
  forall name, name ∈ mockFeatureNames -> P name.
Proof.
  intros ? ? ? ? ? ? ? ? name Hin. unfold mockFeatureNames in Hin.
  repeat (apply elem_of_cons in Hin as [-> | Hin]; [done |]).
  by apply elem_of_nil in Hin.
Qed.

(** Every configured range has integral end points. *)
Lemma slider_range_integral (name : string) :
  name ∈ mockFeatureNames ->
  exists a b : Z,
    sliderMin name = Finite (inject_Z a) /\ sliderMax name = Finite (inject_Z b).
Proof.
  revert name. apply feature_name_cases.
  - by exists 0%Z, 300%Z.
  - by exists 0%Z, 10%Z.
  - by exists (-10)%Z, 50%Z.
  - by exists 0%Z, 100%Z.
  - by exists 0%Z, 150%Z.
  - by exists 0%Z, 1000%Z.
  - by exists 0%Z, 100%Z.
  - by exists 0%Z, 500%Z.
Qed.

(** Every slider takes its range from the table, not from the fallback. *)
Lemma slider_range_configured (name : string) :
  name ∈ mockFeatureNames ->
  exists cfg,
    featureDefaults !! name = Some cfg /\
    sliderMin name = min cfg /\ sliderMax name = max cfg.
Proof.
  intros Hin.
  assert (is_Some (featureDefaults !! name)) as [cfg Hcfg].
  { revert name Hin. by apply feature_name_cases. }
  exists cfg. unfold sliderMin, sliderMax, sliderConfig. by rewrite Hcfg.
Qed.

Lemma defaults_within_range : storedWithinRange defaults.
Proof.
  unfold storedWithinRange.
  refine (feature_name_cases _ _ _ _ _ _ _ _ _);
    eexists; split; vm_compute; reflexivity.
Qed.

Lemma insert_within_range (values : gmap string number) (n : string)
    (v : number) :
  storedWithinRange values -> withinRange n v = true ->
  storedWithinRange (<[n := v]> values).
Proof.
  intros Hall Hv name Hin. destruct (decide (name = n)) as [-> | Hne].
  - exists v. by rewrite lookup_insert_eq.
  - rewrite lookup_insert_ne; [by apply Hall | done].
Qed.

Section Ranges.
Context `{Runtime}.

Lemma stored_within_range_reachable (s : state) :
  reachableBy deliversInRange s -> storedWithinRange (featureValues s).
Proof.
  induction 1 as [| s e s' _ IH He Hd].
  - apply defaults_within_range.
  - eapply (deliver_cases (fun s' => storedWithinRange (featureValues s')))
      in Hd; [exact Hd | ..]; try done.
    + intros name value -> _. destruct He as (v & Hv & Hrange).
      cbn. rewrite Hv. by apply insert_within_range.
    + intros _ _. apply defaults_within_range.
Qed.

(** C6: starting from the defaults, through slider changes that report a
    value inside the slider's range, resets, predictions and timers, every
    feature holds a value between its [min] and [max]; so does the value
    handed to the slider, and so does the number printed under it. *)
Theorem slider_values_within_range (s : state) (name : string) :
  reachableBy deliversInRange s ->
  name ∈ mockFeatureNames ->
  exists cfg v shown,
    featureDefaults !! name = Some cfg /\
    featureValues s !! name = Some v /\
    leb (min cfg) v = true /\ leb v (max cfg) = true /\
    leb (min cfg) (sliderValue s name) = true /\
    leb (sliderValue s name) (max cfg) = true /\
    valueText s name = Some shown /\
    leb (min cfg) shown = true /\ leb shown (max cfg) = true.
Proof.
  intros Hs Hin.
  destruct (stored_within_range_reachable s Hs name Hin) as (v & Hv & Hrange).
  destruct (slider_range_integral name Hin) as (a & b & Hmin & Hmax).
  destruct (slider_range_configured name Hin) as (cfg & Hcfg & Hlo & Hhi).
  unfold withinRange in Hrange. apply andb_prop in Hrange as [Hge Hle].
  exists cfg, v. eexists. rewrite <- Hlo, <- Hhi.
  split; [done |]. split; [done |]. split; [done |]. split; [done |].
  unfold sliderValue, valueText. rewrite Hv. cbn [fmap option_fmap option_map].
  destruct (orElse_zero_between _ _ _ Hge Hle) as [? ?].
  split; [done |]. split; [done |]. split; [reflexivity |].
  rewrite Hmin, Hmax in *. by apply toFixedValue_between.
Qed.

End Ranges.

(** *** The sample session *)

Lemma asciiOnly_uint (d : Decimal.uint) :
  asciiOnly (NilEmpty.string_of_uint d) = true.
Proof. induction d; cbn; done. Qed.

Lemma asciiOnly_printInteger (z : Z) : asciiOnly (Sample.printInteger z) = true.
Proof.
  unfold Sample.printInteger, NilZero.string_of_int.
  destruct (Z.to_int z) as [d | d]; [| cbn [asciiOnly isAscii negb andb]];
    unfold NilZero.string_of_uint; destruct d; try done;
    apply asciiOnly_uint.
Qed.

Lemma sample_prints_ascii (x : number) :
  asciiOnly (@numberToString Sample.runtime x) = true.
Proof.
  destruct x as [q | | |]; try done. cbn [numberToString Sample.runtime].
  unfold Sample.print, Sample.printTenths.
  repeat case_match; rewrite ?asciiOnly_append, ?asciiOnly_printInteger; done.
Qed.

#[local] Existing Instance Sample.runtime.

Lemma pending_reachable : reachable Sample.pending.
Proof. by apply (reach_step _ mounted PredictClick); [constructor | |]. Qed.

Lemma shown_reachable : reachable Sample.shown.
Proof.
  apply (reachable_run _ mounted _ Sample.session); [constructor | |].
  - by repeat constructor.
  - vm_compute. reflexivity.
Qed.

Lemma chilled_reachable : reachableBy deliversInRange Sample.chilled.
Proof.
  apply (reach_step _ mounted
           (SliderValueChange "Temperature (°C)" [Finite (-2.5)]));
    [constructor | | vm_compute; reflexivity].
  exists (Finite (-2.5)). by split.
Qed.

(** The insight text shows the rainfall of the click, not the one the
    slider holds when the text appears. *)
Example insights_show_captured_rainfall :
  featureValues Sample.shown !! "Rainfall (mm)" = Some (Finite 300) /\
  aiInsights Sample.shown = Some (insights true defaults) /\
  defaults !! "Rainfall (mm)" = Some (Finite 50).
Proof. by vm_compute. Qed.

Lemma verdict_depends_only_on_draw_witness :
  deliver Sample.pending (PredictTimerFires 0.9) =
    Some (predictTimeout 0.9 defaults mounted) /\
  deliver (handlePredict Sample.chilled) (PredictTimerFires 0.9) =
    Some (predictTimeout 0.9 (featureValues Sample.chilled) Sample.chilled) /\
  predictionResult (predictTimeout 0.9 defaults mounted) =
    predictionResult
      (predictTimeout 0.9 (featureValues Sample.chilled) Sample.chilled).
Proof.
  split; [reflexivity |]. split; [reflexivity |].
  apply (verdict_depends_only_on_draw 0.9%Q ∅ ∅ Sample.pending
           (handlePredict Sample.chilled)); reflexivity.
Defined.

Lemma verdict_is_one_of_two_witness :
  reachable mounted /\
  deliver mounted PredictClick = Some Sample.pending /\
  run Sample.pending [SliderValueChange "Rainfall (mm)" [Finite 300]] =
    Some (handleSliderChange "Rainfall (mm)" [Finite 300] Sample.pending) /\
  exists s3,
    deliver (handleSliderChange "Rainfall (mm)" [Finite 300] Sample.pending)
      (PredictTimerFires 0.9) = Some s3 /\
    (predictionResult s3 = Some "🚨 High Flood Risk Level!" \/
     predictionResult s3 = Some "✅ Low Flood Risk Level.").
Proof.
  split; [constructor |]. split; [reflexivity |].
  split; [vm_compute; reflexivity |].
  apply (proj2 (verdict_is_one_of_two mounted (reach_mounted _))
           Sample.pending [SliderValueChange "Rainfall (mm)" [Finite 300]]);
    [reflexivity | reflexivity | vm_compute; reflexivity].
Defined.

Lemma insights_interpolate_captured_values_witness :
  reachable mounted /\
  deliver mounted PredictClick = Some Sample.pending /\
  run Sample.pending [SliderValueChange "Rainfall (mm)" [Finite 300]] =
    Some (handleSliderChange "Rainfall (mm)" [Finite 300] Sample.pending) /\
  deliver (handleSliderChange "Rainfall (mm)" [Finite 300] Sample.pending)
    (PredictTimerFires 0.9) = Some Sample.shown /\
  aiInsights Sample.shown =
    Some (insights (isHighRisk 0.9) (featureValues mounted)).
Proof.
  split; [constructor |]. split; [reflexivity |].
  split; [vm_compute; reflexivity |]. split; [vm_compute; reflexivity |].
  apply (proj2 (proj2 (proj2 (proj2 insights_interpolate_captured_values)))
           mounted Sample.pending
           [SliderValueChange "Rainfall (mm)" [Finite 300]]
           (handleSliderChange "Rainfall (mm)" [Finite 300] Sample.pending)
           0.9%Q Sample.shown);
    [constructor | reflexivity | reflexivity | vm_compute; reflexivity
    | vm_compute; reflexivity].
Defined.

Lemma insights_agree_with_verdict_witness :
  reachable Sample.shown /\
  (forall x, asciiOnly (numberToString x) = true) /\
  predictionResult Sample.shown = Some "🚨 High Flood Risk Level!" /\
  exists text,
    aiInsights Sample.shown = Some text /\
    isTemplate true text /\
    includes "⚠️ Key risk factors:" text = true.
Proof.
  split; [exact shown_reachable |]. split; [exact sample_prints_ascii |].
  split; [vm_compute; reflexivity |].
  destruct (proj2 (insights_agree_with_verdict Sample.shown shown_reachable)
              "🚨 High Flood Risk Level!")
    as (text & Htext & Hhigh & _ & _ & _ & Hascii);
    [vm_compute; reflexivity |].
  exists text. split; [exact Htext |]. split.
  - apply Hhigh. reflexivity.
  - apply (Hascii sample_prints_ascii). reflexivity.
Defined.

Lemma slider_values_within_range_witness :
  reachableBy deliversInRange Sample.chilled /\
  "Temperature (°C)" ∈ mockFeatureNames /\
  exists cfg v shown,
    featureDefaults !! "Temperature (°C)" = Some cfg /\
    featureValues Sample.chilled !! "Temperature (°C)" = Some v /\
    leb (min cfg) v = true /\ leb v (max cfg) = true /\
    leb (min cfg) (sliderValue Sample.chilled "Temperature (°C)") = true /\
    leb (sliderValue Sample.chilled "Temperature (°C)") (max cfg) = true /\
    valueText Sample.chilled "Temperature (°C)" = Some shown /\
    leb (min cfg) shown = true /\ leb shown (max cfg) = true.
Proof.
  split; [exact chilled_reachable |].
  assert ("Temperature (°C)" ∈ mockFeatureNames) as Hin
    by (apply (bool_decide_unpack _); vm_compute; reflexivity).
  split; [exact Hin |].
  exact (slider_values_within_range Sample.chilled "Temperature (°C)"
           chilled_reachable Hin).
Defined.

(** The hook state that a finished prediction leaves holds both outputs,
    and the handler clears them; the page itself offers no reset button in
    that state, because its render has thrown. *)
Example handleReset_clears_stored_outputs :
  predictionResult Sample.shown = Some "🚨 High Flood Risk Level!" /\
  is_Some (aiInsights Sample.shown) /\
  renders Sample.shown = false /\
  predictionResult (handleReset Sample.shown) = None /\
  aiInsights (handleReset Sample.shown) = None.
Proof.
  split; [vm_compute; reflexivity |].
  split; [vm_compute; by eexists |].
  split; [vm_compute; reflexivity |]. by split.
Qed.

Lemma handleReset_clears_outputs_witness :
  reachable Sample.chilled /\
  deliver Sample.chilled ResetClick = Some (handleReset Sample.chilled) /\
  run (handleReset Sample.chilled)
    [SliderValueChange "Humidity (%)" [Finite 75]; LoadTimerFires] =
    Some (loadTimeout
            (handleSliderChange "Humidity (%)" [Finite 75]
               (handleReset Sample.chilled))) /\
  featureValues (handleReset Sample.chilled) !! "Temperature (°C)" =
    Some (Finite 25) /\
  resultsTab
    (loadTimeout
       (handleSliderChange "Humidity (%)" [Finite 75]
          (handleReset Sample.chilled))) = inr NoPredictionResultsYet.
Proof.
  assert (reachable Sample.chilled) as Hreach
    by exact (reachableBy_reachable _ _ chilled_reachable).
  split; [exact Hreach |]. split; [vm_compute; reflexivity |].
  split; [vm_compute; reflexivity |]. split; [vm_compute; reflexivity |].
  apply (proj2 (proj2 (proj2 (handleReset_clears_outputs Sample.chilled)))
           Hreach (handleReset Sample.chilled)
           [SliderValueChange "Humidity (%)" [Finite 75]; LoadTimerFires]);
    [vm_compute; reflexivity | reflexivity | vm_compute; reflexivity].
Defined.

Lemma handleSliderChange_frame_witness :
  "Rainfall (mm)" <> "Humidity (%)" /\
  featureValues (handleSliderChange "Humidity (%)" [Finite 75] mounted)
    !! "Rainfall (mm)" = featureValues mounted !! "Rainfall (mm)".
Proof.
  split; [discriminate |].
  apply (handleSliderChange_frame "Humidity (%)" [Finite 75] mounted).
  discriminate.
Defined.

Lemma one_prediction_in_flight_witness :
  reachable Sample.pending /\
  isSubmitting Sample.pending = true /\
  predictButtonDisabled Sample.pending = true /\
  resetButtonDisabled Sample.pending = true /\
  deliver Sample.pending PredictClick = None /\
  deliver Sample.pending ResetClick = None.
Proof.
  split; [exact pending_reachable |]. split; [reflexivity |].
  destruct (one_prediction_in_flight Sample.pending pending_reachable)
    as (_ & _ & Hdisabled).
  destruct (Hdisabled eq_refl) as (Hp & Hr & Hcp & Hcr & _).
  by repeat split.
Defined.

End DashboardProps.

(** ** Properties of the fallback *)

Module NotFoundProps.
Import NotFound.

Section Router.
Variable matchesRoute : string -> bool.

Lemma effectRuns_iff (previous : option string) (path : string) :
  effectRuns previous path = true <-> previous <> Some path.
Proof.
  destruct previous as [before |]; cbn; [| done].
  rewrite negb_true_iff, String.eqb_neq. split; congruence.
Qed.

Lemma navigate_lastLogged (path : string) (s : state) :
  lastLogged s -> lastLogged (navigate matchesRoute path s).
Proof.
  intros Hs p. unfold navigate.
  destruct (matchesRoute path); cbn; [done |]. intros [= <-].
  destruct (effectRuns (mountedWith s) path) eqn:Heff.
  - apply last_snoc.
  - apply Hs. apply not_true_iff_false in Heff.
    rewrite effectRuns_iff in Heff. by apply dec_stable in Heff.
Qed.

Lemma reachable_lastLogged (s : state) :
  reachable matchesRoute s -> lastLogged s.
Proof.
  induction 1 as [path | s path _ IH].
  - apply navigate_lastLogged. by intros p.
  - by apply navigate_lastLogged.
Qed.

Lemma reachable_mounted (s : state) :
  reachable matchesRoute s ->
  matchesRoute (pathname s) = false -> mountedWith s = Some (pathname s).
Proof.
  assert (forall path s0,
             matchesRoute (pathname (navigate matchesRoute path s0)) = false ->
             mountedWith (navigate matchesRoute path s0) =
             Some (pathname (navigate matchesRoute path s0))) as Hnav.
  { intros path s0. unfold navigate.
    destruct (matchesRoute path) eqn:Hm; cbn; [congruence | done]. }
  induction 1; apply Hnav.
Qed.

(** C7: when the location becomes a path that no declared route matches,
    the 404 view is shown; the effect runs when the fallback mounts and
    when it was mounted with another pathname, and then appends one
    [console.error] entry whose arguments end with the attempted path;
    a render with the same pathname logs nothing.  Hence in every
    reachable state with an unmatched location the 404 view is shown and
    the last console entry names that location. *)
Theorem fallback_logs_attempted_path :
  (forall s path,
      matchesRoute path = false ->
      let s' := navigate matchesRoute path s in
      fallbackView matchesRoute s' = Some render /\
      title render = "404" /\
      (mountedWith s <> Some path ->
       console s' =
       (console s ++
        [ConsoleError
           ["404 Error: User attempted to access non-existent route:"; path]])%list) /\
      (mountedWith s = Some path -> console s' = console s)) /\
  (forall s,
      reachable matchesRoute s ->
      matchesRoute (pathname s) = false ->
      fallbackView matchesRoute s = Some render /\
      last (console s) =
      Some (ConsoleError
              ["404 Error: User attempted to access non-existent route:";
               pathname s])).
Proof.
  split.
  - intros s path Hm. unfold fallbackView, navigate. rewrite Hm. cbn.
    rewrite Hm. split; [done |]. split; [done |]. split.
    + intros Hne. apply effectRuns_iff in Hne. by rewrite Hne.
    + intros Heq. rewrite Heq. cbn. by rewrite String.eqb_refl.
  - intros s Hs Hm. unfold fallbackView. rewrite Hm. split; [done |].
    apply (reachable_lastLogged s Hs). by apply reachable_mounted.
Qed.

End Router.

Example declared_routes_match :
  declaredRoutes "/" = true /\ declaredRoutes "/dashboard" = true /\
  declaredRoutes "/nope" = false.
Proof. by vm_compute. Qed.

(** Two visits of the same unknown path with a visit of the home page in
    between are both logged: the fallback was unmounted in between. *)
Example remount_logs_again :
  console
    (navigate declaredRoutes "/nope"
       (navigate declaredRoutes "/" (load declaredRoutes "/nope"))) =
  [logAttempt "/nope"; logAttempt "/nope"].
Proof. reflexivity. Qed.

Lemma fallback_logs_attempted_path_witness :
  declaredRoutes "/nope" = false /\
  mountedWith (load declaredRoutes "/") <> Some "/nope" /\
  fallbackView declaredRoutes
    (navigate declaredRoutes "/nope" (load declaredRoutes "/")) =
    Some render /\
  console (navigate declaredRoutes "/nope" (load declaredRoutes "/")) =
    [ConsoleError
       ["404 Error: User attempted to access non-existent route:"; "/nope"]].
Proof.
  split; [reflexivity |]. split; [discriminate |].
  destruct (proj1 (fallback_logs_attempted_path declaredRoutes)
              (load declaredRoutes "/") "/nope" eq_refl)
    as (Hview & _ & Hlog & _).
  split; [exact Hview |]. apply Hlog. discriminate.
Defined.

End NotFoundProps.

(** ** Further properties of the dashboard *)

Module DashboardMore.
Import Dashboard JSProps DashboardProps.

(** *** Slider changes compose *)

(** X5: of two slider changes of one feature only the later counts. *)
Theorem handleSliderChange_last_wins (n : string) (v1 v2 : list number)
    (s : state) :
  handleSliderChange n v2 (handleSliderChange n v1 s) =
  handleSliderChange n v2 s.
Proof.
  unfold handleSliderChange. cbn. f_equal.
  destruct (head v1), (head v2).
  - apply insert_insert_eq.
  - apply delete_insert_eq.
  - apply insert_delete_eq.
  - apply delete_delete_eq.
Qed.

(** X6: slider changes of two different features can be swapped. *)
Theorem handleSliderChange_commute (n m : string) (v w : list number)
    (s : state) :
  n <> m ->
  handleSliderChange n v (handleSliderChange m w s) =
  handleSliderChange m w (handleSliderChange n v s).
Proof.
  intros Hne. unfold handleSliderChange. cbn. f_equal.
  destruct (head v), (head w).
  - by apply insert_insert_ne.
  - by rewrite delete_insert_ne.
  - by rewrite delete_insert_ne.
  - apply delete_delete.
Qed.

Lemma handleSliderChange_commute_witness :
  "Humidity (%)" <> "Rainfall (mm)" /\
  handleSliderChange "Humidity (%)" [Finite 75]
    (handleSliderChange "Rainfall (mm)" [] mounted) =
  handleSliderChange "Rainfall (mm)" []
    (handleSliderChange "Humidity (%)" [Finite 75] mounted).
Proof.
  split; [discriminate |].
  apply (handleSliderChange_commute "Humidity (%)" "Rainfall (mm)").
  discriminate.
Defined.

(** *** What the slider is given *)

Lemma zero_within_every_range (name : string) :
  withinRange name (Finite 0) = true.
Proof.
  unfold withinRange, sliderMin, sliderMax, sliderConfig.
  destruct (featureDefaults !! name) as [cfg |] eqn:Hcfg; [| reflexivity].
  assert (map_Forall
            (fun _ cfg => leb (min cfg) (Finite 0) && leb (Finite 0) (max cfg)
                          = true) featureDefaults) as Hall.
  { apply map_Forall_to_list. vm_compute. by repeat constructor. }
  exact (Hall name cfg Hcfg).
Qed.

(** X7: the slider is given the stored number unless that is missing or
    [NaN], in which case it is given 0.  The number under the slider is
    absent exactly when the value is missing; a stored [NaN] is printed as
    [NaN].  Zero lies in the range of every slider, so before the mount
    effect has run every slider is given a value inside its range. *)
Theorem sliderValue_cases (s : state) (name : string) :
  (valueText s name = None <-> featureValues s !! name = None) /\
  (featureValues s !! name = None -> sliderValue s name = Finite 0) /\
  (featureValues s !! name = Some NaN ->
   sliderValue s name = Finite 0 /\ valueText s name = Some NaN) /\
  (forall v,
      featureValues s !! name = Some v -> v <> NaN ->
      leb v (sliderValue s name) = true /\
      leb (sliderValue s name) v = true) /\
  (forall v,
      featureValues s !! name = Some v ->
      valueText s name =
      Some (toFixedValue (if ltb (sliderStep name) (Finite 1) then 1 else 0)
              v)) /\
  withinRange name (sliderValue initial name) = true.
Proof.
  unfold sliderValue, valueText.
  split; [by destruct (featureValues s !! name) |].
  split; [by intros -> |]. split; [by intros -> |]. split; [| split].
  - intros v -> Hv. cbn. split.
    all: destruct v as [q | | |]; try done; cbn.
    all: destruct (Qeq_bool q 0) eqn:Hq; cbn; apply Qle_bool_iff;
      [apply Qeq_bool_iff in Hq; rewrite Hq |]; apply Qle_refl.
  - by intros v ->.
  - cbn. rewrite lookup_empty. apply zero_within_every_range.
Qed.

Lemma sliderValue_cases_witness :
  featureValues initial !! "Temperature (°C)" = None /\
  sliderValue initial "Temperature (°C)" = Finite 0 /\
  valueText initial "Temperature (°C)" = None /\
  featureValues
    (handleSliderChange "Temperature (°C)" [NaN] mounted)
    !! "Temperature (°C)" = Some NaN /\
  sliderValue (handleSliderChange "Temperature (°C)" [NaN] mounted)
    "Temperature (°C)" = Finite 0 /\
  valueText (handleSliderChange "Temperature (°C)" [NaN] mounted)
    "Temperature (°C)" = Some NaN.
Proof.
  assert (featureValues initial !! "Temperature (°C)" = None) as Hnone
    by reflexivity.
  assert (featureValues
            (handleSliderChange "Temperature (°C)" [NaN] mounted)
            !! "Temperature (°C)" = Some NaN) as Hnan
    by (vm_compute; reflexivity).
  destruct (sliderValue_cases initial "Temperature (°C)")
    as (Htext & Hzero & _).
  destruct (sliderValue_cases
              (handleSliderChange "Temperature (°C)" [NaN] mounted)
              "Temperature (°C)") as (_ & _ & Hcase & _).
  split; [exact Hnone |]. split; [exact (Hzero Hnone) |].
  split; [exact (proj2 Htext Hnone) |]. split; [exact Hnan |].
  exact (Hcase Hnan).
Defined.

Section Traces.
Context `{Runtime}.

(** *** Toasts and feature values along a run *)

Lemma deliver_toasts (s s' : state) (e : event) :
  deliver s e = Some s' ->
  toasts s' = (toasts s ++ omap emittedToast [e])%list.
Proof.
  intros Hd.
  eapply (deliver_cases
            (fun s' => toasts s' = (toasts s ++ omap emittedToast [e])%list))
    in Hd; [exact Hd | ..].
  - intros name value -> _. cbn. by rewrite app_nil_r.
  - intros -> _. cbn. by rewrite app_nil_r.
  - by intros -> _.
  - intros -> _. cbn. by rewrite app_nil_r.
  - by intros random captured rest -> _.
Qed.

(** X1: the toasts shown during a run are, in order, one success toast
    per delivered reset click and one risk toast per fired prediction
    timer, high or low after the draw of that timer; nothing else shows a
    toast and none is ever removed. *)
Theorem toasts_follow_events (s s' : state) (events : list event) :
  run s events = Some s' ->
  toasts s' = (toasts s ++ omap emittedToast events)%list.
Proof.
  revert s. induction events as [| e events IH]; intros s Hrun; cbn in Hrun.
  - injection Hrun as <-. cbn. by rewrite app_nil_r.
  - destruct (deliver s e) as [s1 |] eqn:Hd; [| discriminate].
    rewrite (IH s1 Hrun), (deliver_toasts s s1 e Hd).
    rewrite <- app_assoc. f_equal.
    change (e :: events) with ([e] ++ events)%list. by rewrite omap_app.
Qed.

Lemma deliver_featureValues (s s' : state) (e : event) :
  deliver s e = Some s' ->
  featureValues s' = inputEffect (featureValues s) e.
Proof.
  intros Hd.
  eapply (deliver_cases
            (fun s' => featureValues s' = inputEffect (featureValues s) e))
    in Hd; [exact Hd | ..].
  - by intros name value -> _.
  - by intros -> _.
  - by intros -> _.
  - by intros -> _.
  - by intros random captured rest -> _.
Qed.

(** X4: the feature values after a run are the initial ones with the
    slider changes and resets of the run applied in order; predict clicks,
    timers and the random draws never change them. *)
Theorem featureValues_follow_inputs (s s' : state) (events : list event) :
  run s events = Some s' ->
  featureValues s' = foldl inputEffect (featureValues s) events.
Proof.
  revert s. induction events as [| e events IH]; intros s Hrun; cbn in Hrun.
  - by injection Hrun as <-.
  - destruct (deliver s e) as [s1 |] eqn:Hd; [| discriminate].
    cbn. rewrite (IH s1 Hrun). by rewrite (deliver_featureValues s s1 e Hd).
Qed.

(** *** The toast and the cards agree with the verdict *)

(** X2: in every reachable state that holds a verdict, the latest toast is
    the risk toast of that verdict: the destructive "High Flood Risk
    Detected" for the high-risk string and "Low Flood Risk Detected" for
    the low-risk string. *)
Theorem latest_toast_agrees_with_verdict (s : state) (isHigh : bool) :
  reachable s ->
  predictionResult s = Some (result isHigh) ->
  last (toasts s) = Some (riskToast isHigh).
Proof.
  intros Hs. revert isHigh.
  induction Hs as [| s e s' _ IH _ Hd]; [done |].
  apply (deliver_cases
           (fun s' => forall isHigh,
                predictionResult s' = Some (result isHigh) ->
                last (toasts s') = Some (riskToast isHigh)) s s' e Hd);
    try done.
  intros random captured rest _ _ isHigh. cbn.
  intros [= ->%result_inj]. apply last_snoc.
Qed.

(** X3: in every reachable state without a verdict the results tab
    renders the placeholder.  In every reachable state with a verdict its
    render throws a [ReferenceError] for [BrainIcon], which the markup of
    the cards uses and the module never imports: the cards are never
    shown, and no slider change and no click is delivered any more. *)
Theorem resultsTab_throws_on_verdict (s : state) :
  reachable s ->
  (predictionResult s = None /\
   resultsTab s = inr NoPredictionResultsYet /\
   renders s = true) \/
  (exists isHigh,
      predictionResult s = Some (result isHigh) /\
      resultsTab s = inl (ReferenceError "BrainIcon") /\
      (forall name value, deliver s (SliderValueChange name value) = None) /\
      deliver s PredictClick = None /\
      deliver s ResetClick = None).
Proof.
  intros Hs.
  destruct (outputsAgree_reachable s Hs) as [[Hr Ha] | (b & v & Hr & Ha)].
  - left. unfold renders, resultsTab. by rewrite Hr.
  - right. exists b. split; [done |].
    assert (resultsTab s = inl (ReferenceError "BrainIcon")) as Hthrow.
    { unfold resultsTab. rewrite Hr. by destruct b. }
    split; [done |]. cbn [deliver]. unfold renders. by rewrite Hthrow.
Qed.

(** *** Missing values are printed as they are *)

(** X8: a slider change with an empty array leaves the feature without a
    value.  When that feature is one the chosen template interpolates, the
    insight text of the next prediction contains the word "undefined". *)
Theorem empty_value_prints_undefined (s s' : state) (name : string)
    (random : Q) :
  run s [SliderValueChange name []; PredictClick; PredictTimerFires random] =
    Some s' ->
  predictTimers s = [] ->
  name ∈ substitutions (insightsTemplate (isHighRisk random)) ->
  featureValues s' !! name = None /\
  exists text, aiInsights s' = Some text /\ includes "undefined" text = true.
Proof.
  intros Hrun Hnil Hin.
  cbn [run] in Hrun.
  destruct (deliver s (SliderValueChange name [])) as [s1 |] eqn:H1;
    [| discriminate].
  destruct (deliver s1 PredictClick) as [s2 |] eqn:H2; [| discriminate].
  destruct (deliver s2 (PredictTimerFires random)) as [s3 |] eqn:H3;
    [| discriminate].
  injection Hrun as <-.
  apply deliver_PredictClick in H2 as (_ & _ & ->).
  assert (s1 = handleSliderChange name [] s) as ->.
  { cbn [deliver] in H1. destruct (renders s); [| discriminate].
    destruct (decide (name ∈ mockFeatureNames)); [| discriminate].
    by injection H1 as <-. }
  cbn [deliver handlePredict predictTimers handleSliderChange] in H3.
  rewrite Hnil in H3. cbn [app] in H3. injection H3 as <-.
  cbn [predictTimeout featureValues aiInsights handleSliderChange
         handlePredict head].
  split; [apply lookup_delete_eq |].
  eexists. split; [reflexivity |].
  destruct (render_subst_occurs (delete name (featureValues s))
              (insightsTemplate (isHighRisk random)) name Hin)
    as (before & after & Heq).
  unfold insights. rewrite Heq, lookup_delete_eq. apply includes_append.
Qed.

(** *** The fade-in *)

Lemma load_once (s s' : state) (events : list event) :
  isLoaded s = negb (loadTimer s) ->
  run s events = Some s' ->
  isLoaded s' = negb (loadTimer s') /\
  isLoaded s' = isLoaded s || existsb isLoadTimerFires events /\
  length (List.filter isLoadTimerFires events) <=
    (if loadTimer s then 1 else 0).
Proof.
  revert s. induction events as [| e events IH]; intros s Hinv Hrun;
    cbn in Hrun.
  - injection Hrun as <-. cbn. rewrite orb_false_r. split; [done |].
    split; [done |]. lia.
  - destruct (deliver s e) as [s1 |] eqn:Hd; [| discriminate].
    assert (isLoaded s1 = negb (loadTimer s1) /\
            isLoaded s1 = isLoaded s || isLoadTimerFires e /\
            (if isLoadTimerFires e
             then loadTimer s = true /\ loadTimer s1 = false
             else loadTimer s1 = loadTimer s)) as (Hinv1 & Hl1 & Htimer).
    { eapply (deliver_cases
                (fun s1 =>
                   isLoaded s1 = negb (loadTimer s1) /\
                   isLoaded s1 = isLoaded s || isLoadTimerFires e /\
                   (if isLoadTimerFires e
                    then loadTimer s = true /\ loadTimer s1 = false
                    else loadTimer s1 = loadTimer s))) in Hd;
        [exact Hd | ..].
      - intros name value -> _. cbn. by rewrite orb_false_r.
      - intros -> _. cbn. by rewrite orb_false_r.
      - intros -> _. cbn. by rewrite orb_false_r.
      - intros -> Ht. cbn. by rewrite orb_true_r.
      - intros random captured rest -> _. cbn. by rewrite orb_false_r. }
    destruct (IH s1 Hinv1 Hrun) as (Hinv' & Hl' & Hcount).
    split; [done |]. split.
    + rewrite Hl', Hl1. cbn. by rewrite orb_assoc.
    + cbn. destruct (isLoadTimerFires e); cbn.
      * destruct Htimer as [-> Hoff]. rewrite Hoff in Hcount. lia.
      * rewrite Htimer in Hcount. exact Hcount.
Qed.

(** X10: along every run of the mounted dashboard the 100 ms timer fires
    at most once, and the parameters tab is shown (instead of transparent
    and shifted) exactly when it has fired. *)
Theorem parameters_tab_fades_in_once (s' : state) (events : list event) :
  run mounted events = Some s' ->
  length (List.filter isLoadTimerFires events) <= 1 /\
  isLoaded s' = existsb isLoadTimerFires events /\
  parametersTabClass s' =
    "space-y-8 transition-all duration-500 " +:+
    (if existsb isLoadTimerFires events
     then "opacity-100 translate-y-0" else "opacity-0 translate-y-4").
Proof.
  intros Hrun.
  destruct (load_once mounted s' events eq_refl Hrun) as (_ & Hl & Hcount).
  cbn in Hl, Hcount. split; [done |]. split; [done |].
  unfold parametersTabClass. by rewrite Hl.
Qed.

End Traces.

(** *** The tables *)

(** X9: the feature names are pairwise different, and the range table and
    the icon table have an entry for exactly these names, so no slider is
    rendered from a fallback.  In every row of the range table the default
    lies between the minimum and the maximum and the step is positive. *)
Theorem feature_tables_consistent :
  NoDup mockFeatureNames /\
  dom featureDefaults = list_to_set mockFeatureNames /\
  dom featureIcons = list_to_set mockFeatureNames /\
  map_Forall
    (fun _ cfg =>
       leb (min cfg) (default cfg) && leb (default cfg) (max cfg) &&
       ltb (Finite 0) (step cfg) = true)
    featureDefaults.
Proof.
  split; [apply (bool_decide_unpack _); vm_compute; reflexivity |].
  split; [unfold featureDefaults; by rewrite dom_list_to_map_L |].
  split; [unfold featureIcons; by rewrite dom_list_to_map_L |].
  apply map_Forall_to_list. vm_compute. by repeat constructor.
Qed.

(** *** The sample session, again *)

#[local] Existing Instance Sample.runtime.

Lemma session_runs : run mounted Sample.session = Some Sample.shown.
Proof. vm_compute. reflexivity. Qed.

Lemma toasts_follow_events_witness :
  run mounted Sample.session = Some Sample.shown /\
  toasts Sample.shown =
    [UiToast true "High Flood Risk Detected"
       "Review the AI insights for detailed analysis and recommendations."].
Proof.
  split; [exact session_runs |].
  exact (toasts_follow_events mounted Sample.shown Sample.session session_runs).
Defined.

Lemma featureValues_follow_inputs_witness :
  run mounted Sample.session = Some Sample.shown /\
  featureValues Sample.shown = <["Rainfall (mm)" := Finite 300]> defaults.
Proof.
  split; [exact session_runs |].
  exact (featureValues_follow_inputs mounted Sample.shown Sample.session
           session_runs).
Defined.

Lemma latest_toast_agrees_with_verdict_witness :
  reachable Sample.shown /\
  predictionResult Sample.shown = Some (result true) /\
  last (toasts Sample.shown) = Some (riskToast true).
Proof.
  split; [exact shown_reachable |].
  assert (predictionResult Sample.shown = Some (result true)) as Hr
    by (vm_compute; reflexivity).
  split; [exact Hr |].
  exact (latest_toast_agrees_with_verdict Sample.shown true shown_reachable Hr).
Defined.

Lemma resultsTab_throws_on_verdict_witness :
  reachable Sample.shown /\
  predictionResult Sample.shown = Some "🚨 High Flood Risk Level!" /\
  resultsTab Sample.shown = inl (ReferenceError "BrainIcon") /\
  deliver Sample.shown ResetClick = None.
Proof.
  split; [exact shown_reachable |].
  assert (predictionResult Sample.shown = Some "🚨 High Flood Risk Level!")
    as Hr by (vm_compute; reflexivity).
  split; [exact Hr |].
  destruct (resultsTab_throws_on_verdict Sample.shown shown_reachable)
    as [(Hnone & _) | (b & _ & Hthrow & _ & _ & Hreset)].
  - rewrite Hr in Hnone. discriminate.
  - split; [exact Hthrow | exact Hreset].
Defined.

Lemma empty_value_prints_undefined_witness :
  exists s',
    run mounted
      [SliderValueChange "Rainfall (mm)" []; PredictClick;
       PredictTimerFires 0.2] = Some s' /\
    predictTimers mounted = [] /\
    "Rainfall (mm)" ∈ substitutions (insightsTemplate (isHighRisk 0.2)) /\
    featureValues s' !! "Rainfall (mm)" = None /\
    exists text, aiInsights s' = Some text /\ includes "undefined" text = true.
Proof.
  eexists. split; [vm_compute; reflexivity |]. split; [reflexivity |].
  assert ("Rainfall (mm)" ∈ substitutions (insightsTemplate (isHighRisk 0.2)))
    as Hin by (apply (bool_decide_unpack _); vm_compute; reflexivity).
  split; [exact Hin |].
  apply (empty_value_prints_undefined mounted _ "Rainfall (mm)" 0.2%Q);
    [vm_compute; reflexivity | reflexivity | exact Hin].
Defined.

Lemma parameters_tab_fades_in_once_witness :
  run mounted [PredictClick; LoadTimerFires] =
    Some (loadTimeout Sample.pending) /\
  isLoaded (loadTimeout Sample.pending) = true /\
  parametersTabClass (loadTimeout Sample.pending) =
    "space-y-8 transition-all duration-500 opacity-100 translate-y-0".
Proof.
  assert (run mounted [PredictClick; LoadTimerFires] =
          Some (loadTimeout Sample.pending)) as Hrun by reflexivity.
  split; [exact Hrun |].
  destruct (parameters_tab_fades_in_once (loadTimeout Sample.pending)
              [PredictClick; LoadTimerFires] Hrun) as (_ & Hl & Hc).
  split; [exact Hl | exact Hc].
Defined.

End DashboardMore.

(** ** Properties of the navigation bar *)

Module NavigationProps.
Import Navigation.

(** X11: whatever the location, at most one link is highlighted: the one
    whose [href] is exactly the pathname.  A pathname that is neither [/]
    nor [/dashboard], also one that differs only by a trailing slash or by
    case, highlights none. *)
Theorem at_most_one_link_active (path : string) :
  length (activeNames path) <= 1 /\
  (forall item,
      item ∈ navItems -> (name item ∈ activeNames path <-> path = href item)) /\
  (path <> "/" -> path <> "/dashboard" -> activeNames path = []) /\
  activeNames "/dashboard/" = [] /\ activeNames "/Dashboard" = [].
Proof.
  split; [| split; [| split]].
  - unfold activeNames, navItems, isActive. cbn.
    destruct (String.eqb_spec path "/") as [-> | Hhome]; cbn; [lia |].
    destruct (path =? "/dashboard")%string; cbn; lia.
  - intros item Hin. unfold navItems in Hin.
    apply elem_of_cons in Hin as [-> | Hin];
      [| apply elem_of_cons in Hin as [-> | Hin];
         [| by apply elem_of_nil in Hin]];
      unfold activeNames, navItems, isActive; cbn.
    + destruct (String.eqb_spec path "/") as [-> | Hhome]; cbn.
      * split; [done | intros _; apply list_elem_of_here].
      * destruct (String.eqb_spec path "/dashboard") as [-> | Hdash]; cbn.
        -- split; [| done]. intros Hin. apply list_elem_of_singleton in Hin.
           discriminate.
        -- split; [| done]. intros Hin. by apply elem_of_nil in Hin.
    + destruct (String.eqb_spec path "/") as [-> | Hhome]; cbn.
      * split; [| done]. intros Hin. apply list_elem_of_singleton in Hin.
        discriminate.
      * destruct (String.eqb_spec path "/dashboard") as [-> | Hdash]; cbn.
        -- split; [done | intros _; apply list_elem_of_here].
        -- split; [| done]. intros Hin. by apply elem_of_nil in Hin.
  - intros Hhome Hdash. unfold activeNames, navItems, isActive. cbn.
    apply String.eqb_neq in Hhome, Hdash. by rewrite Hhome, Hdash.
  - by split.
Qed.

Lemma at_most_one_link_active_witness :
  "/nope" <> "/" /\ "/nope" <> "/dashboard" /\ activeNames "/nope" = [].
Proof.
  split; [discriminate |]. split; [discriminate |].
  apply (at_most_one_link_active "/nope"); discriminate.
Defined.

(** X12: a link of the mobile menu can be clicked only while the menu is
    open.  The click closes the menu and moves to the [href] of the link,
    where that link and no other is highlighted. *)
Theorem mobile_link_closes_menu (s s' : state) (position : nat) :
  deliver s (MobileLinkClick position) = Some s' ->
  mobileMenuOpen s = true /\
  mobileMenuOpen s' = false /\
  mobileLinks s' = [] /\
  exists item,
    navItems !! position = Some item /\
    pathname s' = href item /\
    activeNames (pathname s') = [name item].
Proof.
  cbn. unfold mobileLinks.
  destruct (mobileMenuOpen s); [| by rewrite lookup_nil].
  destruct (navItems !! position) as [item |] eqn:Hitem; [| done].
  intros [= <-]. cbn. repeat split. exists item. repeat split.
  destruct position as [| [| position]]; cbn in Hitem; [| | done];
    by injection Hitem as <-.
Qed.

Lemma mobile_link_closes_menu_witness :
  deliver {| pathname := "/"; mobileMenuOpen := true |} (MobileLinkClick 1) =
    Some {| pathname := "/dashboard"; mobileMenuOpen := false |} /\
  activeNames "/dashboard" = ["Dashboard"].
Proof.
  split; [reflexivity |].
  destruct (mobile_link_closes_menu
              {| pathname := "/"; mobileMenuOpen := true |}
              {| pathname := "/dashboard"; mobileMenuOpen := false |} 1
              eq_refl) as (_ & _ & _ & item & Hitem & _ & Hactive).
  injection Hitem as <-. exact Hactive.
Defined.

(** X13: clicks on the menu button alone never change the location, and
    leave the menu as it was after an even number of clicks and flipped
    after an odd number. *)
Theorem menu_button_parity (s s' : state) (events : list event) :
  forallb isMenuButtonClick events = true ->
  run s events = Some s' ->
  pathname s' = pathname s /\
  mobileMenuOpen s' =
    if Nat.even (length events) then mobileMenuOpen s
    else negb (mobileMenuOpen s).
Proof.
  revert s. induction events as [| e events IH]; intros s Hall Hrun.
  - by injection Hrun as <-.
  - cbn in Hall. apply andb_prop in Hall as [He Hall].
    destruct e; [| discriminate]. cbn [run deliver] in Hrun.
    destruct (IH _ Hall Hrun) as [Hp Hm]. cbn in Hp, Hm.
    split; [done |]. rewrite Hm. cbn [length].
    rewrite Nat.even_succ, <- Nat.negb_even.
    destruct (Nat.even (length events)); cbn; [done |].
    apply negb_involutive.
Qed.

Lemma menu_button_parity_witness :
  run (initial "/") [MenuButtonClick; MenuButtonClick; MenuButtonClick] =
    Some {| pathname := "/"; mobileMenuOpen := true |} /\
  mobileMenuOpen {| pathname := "/"; mobileMenuOpen := true |} =
    negb (mobileMenuOpen (initial "/")).
Proof.
  split; [reflexivity |].
  apply (menu_button_parity (initial "/")
           {| pathname := "/"; mobileMenuOpen := true |}
           [MenuButtonClick; MenuButtonClick; MenuButtonClick]);
    reflexivity.
Defined.

End NavigationProps.

(** ** Further properties of the fallback *)

Module NotFoundMore.
Import NotFound NotFoundProps.

Section Router.
Variable matchesRoute : string -> bool.

Lemma navigate_logsOnlyUnmatched (path : string) (s : state) :
  logsOnlyUnmatched matchesRoute s ->
  logsOnlyUnmatched matchesRoute (navigate matchesRoute path s).
Proof.
  unfold logsOnlyUnmatched, navigate. intros Hs.
  destruct (matchesRoute path) eqn:Hm; cbn; [done |].
  destruct (effectRuns (mountedWith s) path); [| done].
  apply Forall_app. split; [done |]. repeat constructor. by exists path.
Qed.

(** X14: the fallback never logs a path that a declared route matches.
    Every entry of the console of a reachable state is the log of an
    attempt on an unmatched path, and a move to a matched path unmounts
    the fallback and leaves the console as it is. *)
Theorem matched_paths_are_never_logged :
  (forall s,
      reachable matchesRoute s ->
      Forall (fun entry =>
                exists path,
                  entry =
                  ConsoleError
                    ["404 Error: User attempted to access non-existent route:";
                     path] /\
                  matchesRoute path = false)
        (console s)) /\
  (forall s path,
      matchesRoute path = true ->
      console (navigate matchesRoute path s) = console s /\
      fallbackView matchesRoute (navigate matchesRoute path s) = None /\
      mountedWith (navigate matchesRoute path s) = None).
Proof.
  split.
  - intros s Hs. change (logsOnlyUnmatched matchesRoute s).
    induction Hs as [path | s path _ IH].
    + apply navigate_logsOnlyUnmatched. constructor.
    + by apply navigate_logsOnlyUnmatched.
  - intros s path Hm. unfold fallbackView, navigate. rewrite Hm. cbn.
    by rewrite Hm.
Qed.

(** X15: leaving the fallback for a matched path and coming to an
    unmatched path logs that path once more, also when it is the path the
    fallback showed before: the effect runs again on the new mount. *)
Theorem return_after_leaving_logs_again (s : state) (home path : string) :
  matchesRoute home = true ->
  matchesRoute path = false ->
  console (navigate matchesRoute path (navigate matchesRoute home s)) =
  (console s ++
   [ConsoleError
      ["404 Error: User attempted to access non-existent route:"; path]])%list.
Proof.
  intros Hhome Hpath. unfold navigate. rewrite Hhome, Hpath. reflexivity.
Qed.

End Router.

Lemma matched_paths_are_never_logged_witness :
  declaredRoutes "/dashboard" = true /\
  console (navigate declaredRoutes "/dashboard" (load declaredRoutes "/nope")) =
    console (load declaredRoutes "/nope") /\
  fallbackView declaredRoutes
    (navigate declaredRoutes "/dashboard" (load declaredRoutes "/nope")) = None.
Proof.
  split; [reflexivity |].
  destruct (proj2 (matched_paths_are_never_logged declaredRoutes)
              (load declaredRoutes "/nope") "/dashboard" eq_refl)
    as (Hc & Hv & _).
  split; [exact Hc | exact Hv].
Defined.

Lemma return_after_leaving_logs_again_witness :
  declaredRoutes (linkTo render) = true /\
  declaredRoutes "/nope" = false /\
  console
    (navigate declaredRoutes "/nope"
       (navigate declaredRoutes (linkTo render) (load declaredRoutes "/nope"))) =
  [logAttempt "/nope"; logAttempt "/nope"].
Proof.
  split; [reflexivity |]. split; [reflexivity |].
  exact (return_after_leaving_logs_again declaredRoutes
           (load declaredRoutes "/nope") (linkTo render) "/nope"
           eq_refl eq_refl).
Defined.

End NotFoundMore.
